(** * DRIFT search primer: query expansion, report folds and fold-wise
      query decomposition

    A shallow embedding of
    [graphrag/query/structured_search/drift_search/primer.py]:
    [PrimerQueryProcessor.expand_query], [DRIFTPrimer.split_reports],
    [DRIFTPrimer.decompose_query] and [DRIFTPrimer.asearch], with the
    properties the specification states about them.

    Python integers are [Z]; [//] is [Z.div] (both round towards minus
    infinity); [str] is [string]; a list or a data frame of reports is a
    [list] of rows; an exception is a value of [exn] carried by [result]. *)

From Stdlib Require Import ZArith List String Ascii Bool Lia Permutation.
Import ListNotations.

Local Open Scope Z_scope.

(** ** Data model *)

(** [graphrag.model.CommunityReport]; the primer reads [full_content] only. *)
Record CommunityReport : Type := mkReport {
  report_id : string;
  full_content : string
}.

(** A [pandas.DataFrame] of reports, one row per report, carrying the
    [full_content] column. *)
Definition DataFrame : Type := list CommunityReport.

(** [tiktoken.Encoding]: text to token ids. *)
Record Encoding : Type := mkEncoding {
  encode : string -> list nat
}.

(** One chat message, [{"role": ..., "content": ...}]. *)
Record message : Type := mkMessage {
  role : string;
  content : string
}.

(** A keyword dictionary such as [{"type": "json_object"}]. *)
Definition kwdict : Type := list (string * string).

(** [ChatOpenAI]: the synchronous and the asynchronous completion. *)
Record ChatOpenAI : Type := mkChat {
  generate : list message -> string;
  agenerate : list message -> kwdict -> string
}.

(** [DRIFTSearchConfig]; [primer_folds] is an [int] that may be unset. *)
Record DRIFTSearchConfig : Type := mkConfig {
  primer_folds : option Z
}.

(** The exceptions the primer can raise. *)
Inductive exn : Type :=
| IndexError (msg : string)
| JSONDecodeError (doc : string).

Inductive result (A : Type) : Type :=
| Ok (a : A)
| Raise (e : exn).
Arguments Ok {A} a.
Arguments Raise {A} e.

(** What the primer takes from outside the module: the [json] and
    [tiktoken] libraries, the prompt constant of [system_prompt], the
    rendering of a data frame and the arithmetic of [time.time()]. *)
Class Externals : Type := {
  (** a parsed JSON document (the [dict] of a DecomposedResponse) *)
  JSON : Type;
  (** [json.loads]; [None] stands for [json.JSONDecodeError] *)
  json_loads : string -> option JSON;
  (** [tiktoken.get_encoding("cl100k_base")], the default encoding *)
  cl100k_base : Encoding;
  (** [DRIFT_PRIMER_PROMPT.format(query=q, community_reports=c)] *)
  DRIFT_PRIMER_PROMPT_format : string -> string -> string;
  (** [str(df)] *)
  df_str : DataFrame -> string;
  (** Python [float], for clock readings and embedding coordinates *)
  float : Type;
  float_sub : float -> float -> float
}.

(** [BaseTextEmbedding]. *)
Record BaseTextEmbedding `{Externals} : Type := mkEmbedder {
  embed : string -> list float
}.

Record PrimerQueryProcessor `{Externals} : Type := mkProcessor {
  chat_llm : ChatOpenAI;
  text_embedder : BaseTextEmbedding;
  pq_token_encoder : option Encoding;   (* self.token_encoder *)
  reports : list CommunityReport
}.

Record DRIFTPrimer : Type := mkPrimer {
  llm : ChatOpenAI;
  config : DRIFTSearchConfig;
  token_encoder : option Encoding
}.

(** [graphrag.query.structured_search.base.SearchResult], with the fields
    [asearch] fills in. *)
Record SearchResult `{Externals} : Type := mkSearchResult {
  response : list JSON;
  context_data : list (string * DataFrame);
  context_text : string;
  completion_time : float;
  llm_calls : Z;
  prompt_tokens : Z
}.

(** ** String helpers *)

Definition chr (n : nat) : string := String (ascii_of_nat n) EmptyString.
Definition nl : string := chr 10.
Definition dquote : string := chr 34.

Fixpoint spaces (n : nat) : string :=
  match n with
  | O => EmptyString
  | S n' => String (ascii_of_nat 32) (spaces n')
  end.

(** [sep.join(parts)]. *)
Definition join (sep : string) (parts : list string) : string :=
  String.concat sep parts.

(** ** Effects of [expand_query]

    The expander draws from the operating system's entropy, calls the
    model and writes to the module logger.  The world records what was
    drawn, sent and logged. *)

Inductive log_level : Type := INFO | WARNING.

Record World : Type := mkWorld {
  entropy : nat -> nat;             (* the n-th raw draw *)
  draws : nat;                      (* draws consumed so far *)
  llm_requests : list (list message);
  log_records : list (log_level * string)
}.

Definition M (A : Type) : Type := World -> result A * World.

Definition ret {A} (a : A) : M A := fun w => (Ok a, w).

Definition raise {A} (e : exn) : M A := fun w => (Raise e, w).

Definition bind {A B} (c : M A) (k : A -> M B) : M B :=
  fun w =>
    match c w with
    | (Ok a, w') => k a w'
    | (Raise e, w') => (Raise e, w')
    end.

Declare Scope primer_scope.
Delimit Scope primer_scope with primer.
Notation "x <- c ;; k" := (bind c (fun x => k))
  (at level 61, c at next level, right associativity) : primer_scope.
Notation "c ;;; k" := (bind c (fun _ => k))
  (at level 61, right associativity) : primer_scope.

(** [secrets.choice(seq)]: [IndexError] on an empty sequence, otherwise
    the element at a fresh random index below [len(seq)]. *)
Definition secrets_choice {A} (seq : list A) : M A :=
  fun w =>
    match seq with
    | [] => (Raise (IndexError "Cannot choose from an empty sequence"), w)
    | x :: _ =>
        let i := Nat.modulo (entropy w (draws w)) (List.length seq) in
        (Ok (nth i seq x),
         mkWorld (entropy w) (S (draws w)) (llm_requests w) (log_records w))
    end.

(** [self.chat_llm.generate(messages)], recording the request. *)
Definition llm_generate (c : ChatOpenAI) (messages : list message) : M string :=
  fun w =>
    (Ok (generate c messages),
     mkWorld (entropy w) (draws w) (llm_requests w ++ [messages]) (log_records w)).

(** [log.warning(fmt, arg)] and [log.info(fmt, arg)] with one [%s]. *)
Definition log_emit (lvl : log_level) (prefix arg : string) : M unit :=
  fun w =>
    (Ok tt,
     mkWorld (entropy w) (draws w) (llm_requests w)
             (log_records w ++ [(lvl, String.append prefix arg)])).

(** ** Token counting *)

Section Primer.
Context `{Ext : Externals}.

(** Modelled from the spec: [graphrag.query.llm.text_utils.num_tokens] is
    not among the sources.  The tokenizer capability is
    [countTokens(text, optionalEncoding) -> integer], "using the
    configured tokenizer if provided, else a default encoding". *)
Definition num_tokens (text : string) (enc : option Encoding) : Z :=
  let e := match enc with
           | Some e => e
           | None => cl100k_base
           end in
  Z.of_nat (List.length (encode e text)).

(** ** Query expander *)

(** The f-string of [expand_query]. *)
Definition expansion_prompt (query template : string) : string :=
  String.concat EmptyString
    [ "Create a hypothetical answer to the following query: "%string;
      query; nl; nl; nl;
      spaces 18;
      "Format it to follow the structure of the template below:"%string;
      nl; nl; nl;
      spaces 18; template; nl; dquote; nl;
      spaces 18;
      "Ensure that the hypothetical answer does not reference new named entities that are not present in the original query."%string ].

Local Open Scope primer_scope.

Definition expand_query (self : PrimerQueryProcessor) (query : string)
  : M (string * Z) :=
  report <- secrets_choice (reports self) ;;
  let template := full_content report in
  let prompt := expansion_prompt query template in
  let messages := [mkMessage "user" prompt] in
  text <- llm_generate (chat_llm self) messages ;;
  let token_ct := num_tokens (String.append text query) None in
  if String.eqb text EmptyString then
    log_emit WARNING "Failed to generate expansion for query: " query ;;;
    ret (query, token_ct)
  else
    ret (text, token_ct).

(** [PrimerQueryProcessor.__call__]. *)
Definition call (self : PrimerQueryProcessor) (query : string)
  : M (list float * Z) :=
  r <- expand_query self query ;;
  let '(hyde_query, token_ct) := r in
  log_emit INFO "Expanded query: " hyde_query ;;;
  ret (embed (text_embedder self) hyde_query, token_ct).

Local Close Scope primer_scope.

(** ** Report partitioner *)

(** A bound of a Python slice clamped to [0, len]: a negative bound counts
    from the end. *)
Definition slice_bound (len i : Z) : Z :=
  if i <? 0 then Z.max (i + len) 0 else Z.min i len.

(** [df.iloc[start:stop]]: the rows at positions [start] to [stop - 1]. *)
Definition iloc {A} (df : list A) (start stop : Z) : list A :=
  let len := Z.of_nat (List.length df) in
  let lo := slice_bound len start in
  let hi := slice_bound len stop in
  firstn (Z.to_nat (hi - lo)) (skipn (Z.to_nat lo) df).

(** [range(k)]: empty when [k <= 0]. *)
Definition range (k : Z) : list Z := map Z.of_nat (seq 0 (Z.to_nat k)).

(** [x or d] on an optional integer: [None] and [0] are falsy. *)
Definition or_default (x : option Z) (d : Z) : Z :=
  match x with
  | None => d
  | Some v => if v =? 0 then d else v
  end.

Definition start_idx (primer_folds num_reports i : Z) : Z :=
  i * num_reports / primer_folds.

Definition end_idx (primer_folds num_reports i : Z) : Z :=
  if i =? primer_folds - 1 then num_reports
  else (i + 1) * num_reports / primer_folds.

Definition split_reports (self : DRIFTPrimer) (reports : DataFrame)
  : list DataFrame :=
  let num_reports := Z.of_nat (List.length reports) in
  let primer_folds := or_default (primer_folds (config self)) 1 in
  fold_left
    (fun folds i =>
       let fold := iloc reports (start_idx primer_folds num_reports i)
                                (end_idx primer_folds num_reports i) in
       folds ++ [fold])
    (range primer_folds) [].

(** ** Query decomposer *)

(** The awaited coroutine is modelled by its outcome. *)
Definition decompose_query (self : DRIFTPrimer) (query : string)
  (reports : DataFrame) : result (JSON * Z) :=
  let community_reports := join (String.append nl nl) (map full_content reports) in
  let prompt := DRIFT_PRIMER_PROMPT_format query community_reports in
  let messages := [mkMessage "user" prompt] in
  let response := agenerate (llm self) messages [("type", "json_object")]%string in
  match json_loads response with
  | None => Raise (JSONDecodeError response)
  | Some parsed_response =>
      let token_ct := num_tokens (String.append prompt response) (token_encoder self) in
      Ok (parsed_response, token_ct)
  end.

(** ** Join barrier *)

(** Insertion of an index-tagged result into a list ordered by index. *)
Fixpoint insert_tagged {A} (x : nat * A) (l : list (nat * A)) : list (nat * A) :=
  match l with
  | [] => [x]
  | y :: l' => if Nat.leb (fst x) (fst y) then x :: l else y :: insert_tagged x l'
  end.

Definition sort_tagged {A} (l : list (nat * A)) : list (nat * A) :=
  fold_right insert_tagged [] l.

(** The tagged results in the order the tasks complete; the first task
    found to have raised ends the collection with its exception. *)
Fixpoint as_completed {A} (tasks : list (result A)) (completion : list nat)
  : result (list (nat * A)) :=
  match completion with
  | [] => Ok []
  | i :: rest =>
      match nth_error tasks i with
      | None => as_completed tasks rest
      | Some (Raise e) => Raise e
      | Some (Ok a) =>
          match as_completed tasks rest with
          | Ok l => Ok ((i, a) :: l)
          | Raise e => Raise e
          end
      end
  end.

(** Modelled from the spec: [tqdm_asyncio.gather] is not among the
    sources.  The join is a barrier over all tasks whose "results must be
    returned in fold order, independent of completion order" (a "fan-in
    with index tags"), and "if any fold's decomposition raises, the
    orchestrator's result is never produced and the exception propagates".
    [completion] lists the task indices in the order the tasks finish. *)
Definition gather {A} (tasks : list (result A)) (completion : list nat)
  : result (list A) :=
  match as_completed tasks completion with
  | Ok tagged => Ok (map snd (sort_tagged tagged))
  | Raise e => Raise e
  end.

(** [sum(...)] over integers. *)
Definition sum (l : list Z) : Z := fold_left Z.add l 0.

(** ** Primer orchestrator *)

(** [completion] is the order in which the fold tasks finish and [clock]
    the two readings of [time.time()]. *)
Definition asearch (self : DRIFTPrimer) (completion : list nat)
  (clock : float * float) (query : string) (top_k_reports : DataFrame)
  : result SearchResult :=
  let start_time := fst clock in
  let report_folds := split_reports self top_k_reports in
  let tasks := map (fun fold => decompose_query self query fold) report_folds in
  match gather tasks completion with
  | Raise e => Raise e
  | Ok results_with_tokens =>
      let completion_time := float_sub (snd clock) start_time in
      Ok {| response := map fst results_with_tokens;
            context_data := [("top_k_reports"%string, top_k_reports)];
            context_text := df_str top_k_reports;
            completion_time := completion_time;
            llm_calls := 2;
            prompt_tokens := sum (map snd results_with_tokens) |}
  end.

End Primer.

(** ** Concrete collaborators for running the model *)

(** One token per byte. *)
Definition byte_encoding : Encoding :=
  mkEncoding (fun s => map nat_of_ascii (list_ascii_of_string s)).

(** Every text is a single token. *)
Definition blob_encoding : Encoding :=
  mkEncoding (fun _ => [O]).

(** A document is taken to parse when it opens with a brace. *)
Definition braces_loads (s : string) : option string :=
  match s with
  | String c _ => if Ascii.eqb c (ascii_of_nat 123) then Some s else None
  | EmptyString => None
  end.

Definition demo_externals : Externals := {|
  JSON := string;
  json_loads := braces_loads;
  cl100k_base := byte_encoding;
  DRIFT_PRIMER_PROMPT_format := fun query community_reports =>
    String.concat EmptyString
      ["Query: "%string; query; nl; "Reports: "%string; community_reports];
  df_str := fun df => join nl (map full_content df);
  float := Z;
  float_sub := Z.sub
|}.

(** A model that answers nothing to [generate] and an empty object to
    [agenerate]. *)
Definition quiet_llm : ChatOpenAI :=
  mkChat (fun _ => EmptyString) (fun _ _ => "{}"%string).

Definition contains (needle : string) (s : string) : bool :=
  match String.index 0 needle s with
  | Some _ => true
  | None => false
  end.

(** A model whose structured answer is not JSON for prompts that mention
    the text [bad], and the prompt in braces otherwise. *)
Definition flaky_llm : ChatOpenAI :=
  mkChat (fun _ => "An answer."%string)
         (fun messages _ =>
            if existsb (fun m => contains "bad" (content m)) messages
            then "not json"%string
            else String.concat EmptyString
                   ("{"%string :: map content messages ++ ["}"%string])).

(** A model whose structured answer is never JSON. *)
Definition garbled_llm : ChatOpenAI :=
  mkChat (fun _ => EmptyString) (fun _ _ => "not json"%string).

(** A model that completes only the prompts that mention the text
    [zebra], and returns the empty string for the others. *)
Definition picky_llm : ChatOpenAI :=
  mkChat (fun messages =>
            if existsb (fun m => contains "zebra" (content m)) messages
            then "An answer."%string else EmptyString)
         (fun _ _ => "{}"%string).

(** One token for every group of three characters from the left, and one
    for a shorter last group: what [cl100k_base] does on a string of
    decimal digits, where [123] is one token and [123123] is two. *)
Fixpoint triples (text : string) : list nat :=
  match text with
  | EmptyString => []
  | String a EmptyString => [nat_of_ascii a]
  | String a (String b EmptyString) => [nat_of_ascii a + nat_of_ascii b]%nat
  | String a (String b (String c rest)) =>
      (nat_of_ascii a + nat_of_ascii b + nat_of_ascii c)%nat :: triples rest
  end.

Definition triple_encoding : Encoding := mkEncoding triples.

Definition demo_reports (n : nat) : DataFrame :=
  map (fun i => mkReport (chr (48 + i)) (chr (97 + i))) (seq 0 n).

Definition demo_primer (c : ChatOpenAI) (k : option Z) (enc : option Encoding)
  : DRIFTPrimer :=
  mkPrimer c (mkConfig k) enc.

Definition demo_processor (c : ChatOpenAI) (enc : option Encoding)
  (rs : list CommunityReport) : @PrimerQueryProcessor demo_externals :=
  @mkProcessor demo_externals c (@mkEmbedder demo_externals (fun _ => [])) enc rs.

(** The collaborators of [demo_externals] with the digit-group encoding as
    the default one. *)
Definition digits_externals : Externals := {|
  JSON := string;
  json_loads := braces_loads;
  cl100k_base := triple_encoding;
  DRIFT_PRIMER_PROMPT_format := @DRIFT_PRIMER_PROMPT_format demo_externals;
  df_str := @df_str demo_externals;
  float := Z;
  float_sub := Z.sub
|}.

Definition digits_processor (c : ChatOpenAI) (enc : option Encoding)
  (rs : list CommunityReport) : @PrimerQueryProcessor digits_externals :=
  @mkProcessor digits_externals c (@mkEmbedder digits_externals (fun _ => [])) enc rs.

Definition demo_world : World :=
  mkWorld (fun n => n) O [] [].

(** The two clock readings of a search that takes five seconds. *)
Definition demo_clock : @float demo_externals * @float demo_externals :=
  (10, 15).

(** ** Vocabulary of the specification *)

(** The size of every fold, in fold order. *)
Definition fold_sizes (folds : list DataFrame) : list Z :=
  map (fun fold => Z.of_nat (List.length fold)) folds.

Definition maximum (l : list Z) : Z := fold_right Z.max (hd 0 l) l.
Definition minimum (l : list Z) : Z := fold_right Z.min (hd 0 l) l.

Definition is_empty {A} (l : list A) : bool :=
  match l with
  | [] => true
  | _ :: _ => false
  end.

(** The rows at positions [lo] to [hi - 1]. *)
Definition rows {A} (df : list A) (lo hi : Z) : list A :=
  firstn (Z.to_nat (hi - lo)) (skipn (Z.to_nat lo) df).

(** The results [rs] tagged with their task indices, counted from [s]. *)
Fixpoint tag_from {A} (s : nat) (rs : list A) : list (nat * A) :=
  match rs with
  | [] => []
  | r :: rs' => (s, r) :: tag_from (S s) rs'
  end.

(** What task [i] contributes to the collection when the tasks' outcomes
    are [rs]. *)
Definition tagged_at {A} (s : nat) (rs : list A) (i : nat) : list (nat * A) :=
  match nth_error rs i with
  | Some a => [((s + i)%nat, a)]
  | None => []
  end.

(** The records [expand_query] and [__call__] write to the log. *)
Definition warning_record (query : string) : log_level * string :=
  (WARNING, String.append "Failed to generate expansion for query: " query).

Definition info_record (hyde_query : string) : log_level * string :=
  (INFO, String.append "Expanded query: " hyde_query).

Section Vocabulary.
Context `{Ext : Externals}.

(** The prompt [decompose_query] renders for a fold, and the raw answer
    of the model to it. *)
Definition fold_prompt (query : string) (fold : DataFrame) : string :=
  DRIFT_PRIMER_PROMPT_format query
    (join (String.append nl nl) (map full_content fold)).

Definition fold_answer (self : DRIFTPrimer) (query : string) (fold : DataFrame)
  : string :=
  agenerate (llm self) [mkMessage "user" (fold_prompt query fold)]
            [("type", "json_object")]%string.

(** The token count [decompose_query] reports for a fold: that of the
    prompt followed by the model's raw answer, under the primer's token
    encoder. *)
Definition fold_tokens (self : DRIFTPrimer) (query : string) (fold : DataFrame)
  : Z :=
  num_tokens (String.append (fold_prompt query fold) (fold_answer self query fold))
             (token_encoder self).

(** The request [expand_query] sends when the template drawn is the
    report [r], and the model's completion of it. *)
Definition expansion_request (query : string) (r : CommunityReport)
  : list message :=
  [mkMessage "user" (expansion_prompt query (full_content r))].

Definition expansion_text (self : PrimerQueryProcessor) (query : string)
  (r : CommunityReport) : string :=
  generate (chat_llm self) (expansion_request query r).

(** The report that [secrets.choice] draws from [rs] in the world [w]. *)
Definition drawn_report (rs : list CommunityReport) (w : World)
  : option CommunityReport :=
  match rs with
  | [] => None
  | x :: _ => Some (nth (Nat.modulo (entropy w (draws w)) (List.length rs)) rs x)
  end.

(** The same processor with another token encoder stored in it. *)
Definition with_token_encoder (self : PrimerQueryProcessor)
  (enc : option Encoding) : PrimerQueryProcessor :=
  {| chat_llm := chat_llm self;
     text_embedder := text_embedder self;
     pq_token_encoder := enc;
     reports := reports self |}.

End Vocabulary.

(** ** Fold bounds *)

Lemma end_idx_uniform k n i :
  1 <= k -> end_idx k n i = (i + 1) * n / k.
Proof.
  intros Hk. unfold end_idx.
  destruct (Z.eqb_spec i (k - 1)) as [-> | _]; [ | reflexivity].
  replace (k - 1 + 1) with k by lia.
  rewrite Z.mul_comm. symmetry. apply Z.div_mul. lia.
Qed.

Lemma bound_nonneg k n i : 1 <= k -> 0 <= n -> 0 <= i -> 0 <= i * n / k.
Proof. intros. apply Z.div_pos; nia. Qed.

Lemma bound_mono k n i j :
  1 <= k -> 0 <= n -> i <= j -> i * n / k <= j * n / k.
Proof. intros. apply Z.div_le_mono; nia. Qed.

Lemma bound_last k n : 1 <= k -> k * n / k = n.
Proof. intros. rewrite Z.mul_comm. apply Z.div_mul. lia. Qed.

Lemma bound_le_total k n i :
  1 <= k -> 0 <= n -> i <= k -> i * n / k <= n.
Proof.
  intros. rewrite <- (bound_last k n) at 2 by lia. now apply bound_mono.
Qed.

(** Consecutive bounds differ by the quotient or by the quotient plus one. *)
Lemma bound_step k n i :
  1 <= k -> n / k <= (i + 1) * n / k - i * n / k <= n / k + 1.
Proof.
  intros Hk.
  replace ((i + 1) * n) with (i * n + n) by ring.
  pose proof (Z.div_mod (i * n) k ltac:(lia)) as Ha.
  pose proof (Z.div_mod n k ltac:(lia)) as Hn.
  pose proof (Z.div_mod (i * n + n) k ltac:(lia)) as Hs.
  pose proof (Z.mod_pos_bound (i * n) k ltac:(lia)).
  pose proof (Z.mod_pos_bound n k ltac:(lia)).
  pose proof (Z.mod_pos_bound (i * n + n) k ltac:(lia)).
  nia.
Qed.

(** ** Slices *)

Lemma iloc_rows {A} (df : list A) lo hi :
  0 <= lo <= hi -> hi <= Z.of_nat (List.length df) ->
  iloc df lo hi = rows df lo hi.
Proof.
  intros Hlo Hhi. unfold iloc, rows, slice_bound.
  destruct (Z.ltb_spec lo 0); [lia | ].
  destruct (Z.ltb_spec hi 0); [lia | ].
  now rewrite !Z.min_l by lia.
Qed.

Lemma rows_length {A} (df : list A) lo hi :
  0 <= lo <= hi -> hi <= Z.of_nat (List.length df) ->
  Z.of_nat (List.length (rows df lo hi)) = hi - lo.
Proof.
  intros Hlo Hhi. unfold rows.
  rewrite length_firstn, length_skipn. lia.
Qed.

Lemma rows_all {A} (df : list A) :
  rows df 0 (Z.of_nat (List.length df)) = df.
Proof.
  unfold rows. rewrite Z.sub_0_r, Nat2Z.id. simpl. apply firstn_all.
Qed.

Lemma firstn_plus {A} (a b : nat) (l : list A) :
  firstn (a + b) l = firstn a l ++ firstn b (skipn a l).
Proof.
  revert l. induction a as [ | a IH]; intros l; [reflexivity | ].
  destruct l as [ | x l]; simpl.
  - now rewrite firstn_nil.
  - now rewrite IH.
Qed.

Lemma rows_app {A} (df : list A) a b c :
  0 <= a <= b -> b <= c ->
  rows df a b ++ rows df b c = rows df a c.
Proof.
  intros Hab Hbc. unfold rows.
  replace (Z.to_nat (c - a)) with (Z.to_nat (b - a) + Z.to_nat (c - b))%nat by lia.
  rewrite firstn_plus, skipn_skipn.
  now replace (Z.to_nat (b - a) + Z.to_nat a)%nat with (Z.to_nat b) by lia.
Qed.

(** ** The partition computed by [split_reports] *)

Lemma fold_left_snoc {A B} (f : A -> B) (l : list A) (acc : list B) :
  fold_left (fun folds i => folds ++ [f i]) l acc = acc ++ map f l.
Proof.
  revert acc. induction l as [ | x l IH]; intros acc; simpl.
  - now rewrite app_nil_r.
  - rewrite IH, <- app_assoc. reflexivity.
Qed.

Lemma in_range k i : In i (range k) <-> 0 <= i < k.
Proof.
  unfold range. rewrite in_map_iff. split.
  - intros (j & <- & Hj). apply in_seq in Hj. lia.
  - intros Hi. exists (Z.to_nat i). split; [lia | ]. apply in_seq. lia.
Qed.

Lemma range_length k : 0 <= k -> Z.of_nat (List.length (range k)) = k.
Proof. intros. unfold range. rewrite length_map, length_seq. lia. Qed.

Lemma nth_error_range {B} (f : Z -> B) k i :
  0 <= i < k -> nth_error (map f (range k)) (Z.to_nat i) = Some (f i).
Proof.
  intros Hi. unfold range. rewrite map_map.
  rewrite nth_error_map, nth_error_seq.
  destruct (Nat.ltb_spec (Z.to_nat i) (Z.to_nat k)); [ | lia].
  simpl. f_equal. f_equal. lia.
Qed.

(** The loop of [split_reports] as a map over the fold indices. *)
Lemma split_reports_map (self : DRIFTPrimer) (reports : DataFrame) :
  let n := Z.of_nat (List.length reports) in
  let k := or_default (primer_folds (config self)) 1 in
  split_reports self reports =
  map (fun i => iloc reports (start_idx k n i) (end_idx k n i)) (range k).
Proof.
  unfold split_reports. now rewrite fold_left_snoc.
Qed.

Lemma split_reports_rows (self : DRIFTPrimer) (reports : DataFrame) k :
  primer_folds (config self) = Some k -> 1 <= k ->
  let n := Z.of_nat (List.length reports) in
  split_reports self reports =
  map (fun i => rows reports (i * n / k) ((i + 1) * n / k)) (range k).
Proof.
  intros Hcfg Hk n. rewrite split_reports_map, Hcfg. simpl.
  destruct (Z.eqb_spec k 0); [lia | ].
  apply map_ext_in. intros i Hi. apply in_range in Hi.
  rewrite end_idx_uniform by lia. unfold start_idx. fold n.
  apply iloc_rows.
  - split; [apply bound_nonneg | apply bound_mono]; lia.
  - apply bound_le_total; lia.
Qed.

Lemma concat_rows {A} (df : list A) (b : Z -> Z) (m : nat) :
  (forall i j, 0 <= i <= j -> 0 <= b i <= b j) ->
  List.concat (map (fun i => rows df (b i) (b (i + 1))) (map Z.of_nat (seq 0 m)))
  = rows df (b 0) (b (Z.of_nat m)).
Proof.
  intros Hb. induction m as [ | m IH].
  - simpl. unfold rows. now rewrite Z.sub_diag.
  - rewrite seq_S, !map_app, concat_app, IH.
    replace (Z.of_nat (S m)) with (Z.of_nat m + 1) by lia.
    cbn [map List.concat Nat.add]. rewrite app_nil_r.
    apply rows_app.
    + apply Hb. lia.
    + apply Hb. lia.
Qed.

Lemma count_empty {A} (l : list (list A)) :
  Forall (fun f => (List.length f <= 1)%nat) l ->
  (List.length (filter is_empty l) + List.length (List.concat l))%nat = List.length l.
Proof.
  induction 1 as [ | f l Hf _ IH]; [reflexivity | ].
  simpl. rewrite length_app.
  destruct f as [ | x [ | y f]]; simpl in *; lia.
Qed.

Lemma fold_sizes_split (self : DRIFTPrimer) (reports : DataFrame) k :
  primer_folds (config self) = Some k -> 1 <= k ->
  let n := Z.of_nat (List.length reports) in
  fold_sizes (split_reports self reports) =
  map (fun i => (i + 1) * n / k - i * n / k) (range k).
Proof.
  intros Hcfg Hk n. rewrite (split_reports_rows self reports k Hcfg Hk).
  unfold fold_sizes. rewrite map_map. apply map_ext_in.
  intros i Hi. apply in_range in Hi. fold n. apply rows_length.
  - split; [apply bound_nonneg | apply bound_mono]; lia.
  - apply bound_le_total; lia.
Qed.

Lemma maximum_le (l : list Z) d hi :
  d <= hi -> Forall (fun x => x <= hi) l -> fold_right Z.max d l <= hi.
Proof. intros Hd. induction 1; simpl; lia. Qed.

Lemma minimum_ge (l : list Z) d lo :
  lo <= d -> Forall (fun x => lo <= x) l -> lo <= fold_right Z.min d l.
Proof. intros Hd. induction 1; simpl; lia. Qed.

Lemma spread_within (l : list Z) lo hi :
  l <> [] -> Forall (fun x => lo <= x <= hi) l ->
  lo <= minimum l /\ maximum l <= hi.
Proof.
  intros Hne Hall. destruct l as [ | x l]; [congruence | ].
  unfold minimum, maximum. simpl hd.
  pose proof (Forall_inv Hall) as Hx. simpl in Hx.
  split.
  - apply minimum_ge; [lia | ].
    eapply Forall_impl; [ | exact Hall]. simpl. intros; lia.
  - apply maximum_le; [lia | ].
    eapply Forall_impl; [ | exact Hall]. simpl. intros; lia.
Qed.

(** C2 (as amended).  For a corpus of [n] reports and [k >= 1] configured
    folds, [split_reports] returns exactly [k] folds; fold [i] holds the
    rows of the half-open index range [[i*n/k, (i+1)*n/k)], the first
    range starting at [0] and the last ending at [n]; the ranges are
    ascending and pairwise disjoint, and the folds concatenated give the
    corpus back, every report once.  When [k > n] exactly [k - n] folds
    are empty, the first fold among them; the empty folds are not the
    trailing ones, since for [n >= 1] the last fold is never empty. *)
Theorem split_reports_partition (self : DRIFTPrimer) (reports : DataFrame) (k : Z) :
  primer_folds (config self) = Some k -> 1 <= k ->
  let n := Z.of_nat (List.length reports) in
  let folds := split_reports self reports in
  let lo := fun i => i * n / k in
  Z.of_nat (List.length folds) = k
  /\ (forall i, 0 <= i < k ->
        nth_error folds (Z.to_nat i) = Some (rows reports (lo i) (lo (i + 1)))
        /\ 0 <= lo i <= lo (i + 1) /\ lo (i + 1) <= n)
  /\ lo 0 = 0 /\ lo k = n
  /\ (forall i j, 0 <= i < j -> j < k -> lo (i + 1) <= lo j)
  /\ List.concat folds = reports
  /\ (n < k -> lo 0 = lo 1
               /\ Z.of_nat (List.length (filter is_empty folds)) = k - n)
  /\ (1 <= n -> lo (k - 1) < lo k).
Proof.
  intros Hcfg Hk n folds lo.
  assert (Hrows : folds = map (fun i => rows reports (lo i) (lo (i + 1))) (range k))
    by (apply split_reports_rows; assumption).
  assert (Hn : 0 <= n) by (unfold n; lia).
  assert (Hlast : lo k = n) by (apply bound_last; lia).
  assert (Hcat : List.concat folds = reports).
  { rewrite Hrows. unfold range.
    rewrite (concat_rows reports lo (Z.to_nat k)).
    - rewrite Z2Nat.id by lia. rewrite Hlast. unfold lo. simpl.
      apply rows_all.
    - intros i j Hij. split; [apply bound_nonneg | apply bound_mono]; lia. }
  assert (Hlen : Z.of_nat (List.length folds) = k).
  { rewrite Hrows, length_map. apply range_length. lia. }
  repeat split.
  - exact Hlen.
  - rewrite Hrows. now apply (nth_error_range (fun i => rows reports (lo i) (lo (i + 1)))).
  - apply bound_nonneg; lia.
  - apply bound_mono; lia.
  - apply bound_le_total; lia.
  - exact Hlast.
  - intros i j Hij Hj. apply bound_mono; lia.
  - exact Hcat.
  - unfold lo. rewrite Z.mul_0_l, Z.mul_1_l, Z.div_0_l by lia.
    symmetry. apply Z.div_small. lia.
  - assert (Hsmall : Forall (fun f : DataFrame => (List.length f <= 1)%nat) folds).
    { rewrite Hrows. apply Forall_forall. intros f Hf.
      apply in_map_iff in Hf. destruct Hf as (i & <- & Hi).
      apply in_range in Hi.
      assert (Z.of_nat (List.length (rows reports (lo i) (lo (i + 1))))
              = lo (i + 1) - lo i) as Hsz.
      { apply rows_length.
        - split; [apply bound_nonneg | apply bound_mono]; lia.
        - apply bound_le_total; lia. }
      pose proof (bound_step k n i Hk) as Hstep.
      rewrite (Z.div_small n k) in Hstep by lia.
      unfold lo in Hsz |- *. lia. }
    pose proof (count_empty folds Hsmall) as Hcount.
    rewrite Hcat in Hcount. fold n in Hcount.
    unfold n, DataFrame in *. lia.
  - intros Hpos. rewrite Hlast. unfold lo. apply Z.div_lt_upper_bound; nia.
Qed.

(** C3.  For a corpus of any size and [k >= 1] configured folds, the
    largest and the smallest fold of [split_reports] differ in size by at
    most one report. *)
Theorem split_reports_balanced (self : DRIFTPrimer) (reports : DataFrame) (k : Z) :
  primer_folds (config self) = Some k -> 1 <= k ->
  let sizes := fold_sizes (split_reports self reports) in
  maximum sizes - minimum sizes <= 1.
Proof.
  intros Hcfg Hk sizes.
  set (n := Z.of_nat (List.length reports)).
  assert (Hsz : sizes = map (fun i => (i + 1) * n / k - i * n / k) (range k))
    by (apply fold_sizes_split; assumption).
  assert (Hne : sizes <> []).
  { intros Heq. apply (f_equal (@List.length Z)) in Heq.
    rewrite Hsz, length_map in Heq.
    pose proof (range_length k ltac:(lia)). simpl in Heq. lia. }
  assert (Hall : Forall (fun x => n / k <= x <= n / k + 1) sizes).
  { rewrite Hsz. apply Forall_forall. intros x Hx.
    apply in_map_iff in Hx. destruct Hx as (i & <- & _).
    now apply bound_step. }
  destruct (spread_within sizes (n / k) (n / k + 1) Hne Hall). lia.
Qed.

(** C8.  A configured fold count of [0], or none at all, makes
    [split_reports] behave as with a fold count of [1]: it returns a
    single fold, the whole corpus. *)
Theorem split_reports_falsy_folds (c : ChatOpenAI) (enc : option Encoding)
  (reports : DataFrame) :
  split_reports (mkPrimer c (mkConfig (Some 0)) enc) reports
  = split_reports (mkPrimer c (mkConfig (Some 1)) enc) reports
  /\ split_reports (mkPrimer c (mkConfig None) enc) reports
     = split_reports (mkPrimer c (mkConfig (Some 1)) enc) reports
  /\ split_reports (mkPrimer c (mkConfig (Some 1)) enc) reports = [reports].
Proof.
  repeat split; try reflexivity.
  unfold split_reports. simpl.
  unfold start_idx, end_idx. simpl.
  change (0 / 1) with 0. rewrite iloc_rows by lia. now rewrite rows_all.
Qed.

(** ** The join barrier *)

Section Gather.
Context {A : Type}.
Implicit Types (l : list (nat * A)) (rs : list A) (tasks : list (result A)).

Lemma insert_tagged_comm (x y : nat * A) l :
  fst x <> fst y ->
  insert_tagged x (insert_tagged y l) = insert_tagged y (insert_tagged x l).
Proof.
  intros Hxy. induction l as [ | z l IH]; simpl.
  - destruct (Nat.leb_spec (fst x) (fst y)), (Nat.leb_spec (fst y) (fst x));
      try reflexivity; lia.
  - destruct (Nat.leb_spec (fst y) (fst z)), (Nat.leb_spec (fst x) (fst z)); simpl;
      repeat match goal with
             | |- context [Nat.leb ?a ?b] => destruct (Nat.leb_spec a b)
             end; try reflexivity; try lia.
    now rewrite IH.
Qed.

(** Sorting by index does not depend on the order of arrival. *)
Lemma sort_tagged_perm l l' :
  Permutation l l' -> NoDup (map fst l) -> sort_tagged l = sort_tagged l'.
Proof.
  induction 1 as [ | x l l' Hp IH | x y l | l l' l'' Hp1 IH1 Hp2 IH2]; intros Hnd.
  - reflexivity.
  - simpl. rewrite IH; [reflexivity | ]. now inversion Hnd.
  - simpl. apply insert_tagged_comm.
    simpl in Hnd. inversion Hnd as [ | ? ? Hnotin _]; subst.
    intros Heq. apply Hnotin. left. now symmetry.
  - rewrite IH1 by assumption. apply IH2.
    eapply Permutation_NoDup; [ | exact Hnd]. now apply Permutation_map.
Qed.

Lemma insert_tagged_front (s : nat) (a : A) rs :
  insert_tagged (s, a) (tag_from (S s) rs) = (s, a) :: tag_from (S s) rs.
Proof.
  destruct rs as [ | r rs]; simpl; [reflexivity | ].
  destruct (Nat.leb_spec s (S s)); [reflexivity | lia].
Qed.

Lemma sort_tagged_tag_from (s : nat) rs :
  sort_tagged (tag_from s rs) = tag_from s rs.
Proof.
  revert s. induction rs as [ | r rs IH]; intros s; [reflexivity | ].
  change (sort_tagged (tag_from s (r :: rs)))
    with (insert_tagged (s, r) (sort_tagged (tag_from (S s) rs))).
  rewrite IH. apply insert_tagged_front.
Qed.

Lemma fst_tag_from (s : nat) rs : map fst (tag_from s rs) = seq s (List.length rs).
Proof.
  revert s. induction rs as [ | r rs IH]; intros s; simpl; [reflexivity | ].
  now rewrite IH.
Qed.

Lemma snd_tag_from (s : nat) rs : map snd (tag_from s rs) = rs.
Proof.
  revert s. induction rs as [ | r rs IH]; intros s; simpl; [reflexivity | ].
  now rewrite IH.
Qed.

Lemma tagged_at_seq (s : nat) rs :
  flat_map (tagged_at s rs) (seq 0 (List.length rs)) = tag_from s rs.
Proof.
  revert s. induction rs as [ | r rs IH]; intros s; [reflexivity | ].
  cbn [List.length seq flat_map]. unfold tagged_at at 1. cbn [nth_error app].
  rewrite Nat.add_0_r.
  rewrite <- seq_shift, flat_map_concat_map, map_map, <- flat_map_concat_map.
  cbn [tag_from]. f_equal.
  rewrite <- IH. apply flat_map_ext. intros i.
  unfold tagged_at. cbn [nth_error].
  destruct (nth_error rs i); [ | reflexivity].
  do 2 f_equal. lia.
Qed.

(** When no task raises, every completed task contributes its tagged
    result, in completion order. *)
Lemma as_completed_all_ok rs (completion : list nat) :
  as_completed (map Ok rs) completion = Ok (flat_map (tagged_at 0 rs) completion).
Proof.
  induction completion as [ | i rest IH]; [reflexivity | ].
  cbn [as_completed flat_map]. rewrite nth_error_map. unfold tagged_at at 1.
  destruct (nth_error rs i) as [a | ]; cbn [option_map app].
  - now rewrite IH.
  - exact IH.
Qed.

(** The barrier hands the results back in task order, whatever the order
    of completion. *)
Lemma gather_all_ok rs (completion : list nat) :
  Permutation completion (seq 0 (List.length rs)) ->
  gather (map Ok rs) completion = Ok rs.
Proof.
  intros Hperm. unfold gather. rewrite as_completed_all_ok. f_equal.
  assert (Hp : Permutation (tag_from 0 rs) (flat_map (tagged_at 0 rs) completion)).
  { rewrite <- tagged_at_seq. apply Permutation_flat_map. now symmetry. }
  rewrite <- (sort_tagged_perm _ _ Hp).
  - now rewrite sort_tagged_tag_from, snd_tag_from.
  - rewrite fst_tag_from. apply seq_NoDup.
Qed.

(** A task that raised and completes makes the collection raise. *)
Lemma as_completed_raises tasks (completion : list nat) (i : nat) (e : exn) :
  In i completion -> nth_error tasks i = Some (Raise e) ->
  exists e', as_completed tasks completion = Raise e' /\ In (Raise e') tasks.
Proof.
  intros Hin Hi. induction completion as [ | j rest IH]; [contradiction | ].
  cbn [as_completed].
  destruct (nth_error tasks j) as [[a | e0] | ] eqn:Hj.
  - destruct Hin as [-> | Hin]; [congruence | ].
    destruct (IH Hin) as (e' & -> & He'). now exists e'.
  - exists e0. split; [reflexivity | ]. eapply nth_error_In; eassumption.
  - destruct Hin as [-> | Hin]; [congruence | ]. now apply IH.
Qed.

Lemma gather_raises tasks (completion : list nat) (i : nat) (e : exn) :
  Permutation completion (seq 0 (List.length tasks)) ->
  nth_error tasks i = Some (Raise e) ->
  exists e', gather tasks completion = Raise e' /\ In (Raise e') tasks.
Proof.
  intros Hperm Hi.
  assert (Hin : In i completion).
  { eapply Permutation_in; [symmetry; exact Hperm | ].
    apply in_seq. split; [lia | ]. simpl.
    apply nth_error_Some. congruence. }
  destruct (as_completed_raises tasks completion i e Hin Hi) as (e' & Hc & He').
  exists e'. unfold gather. now rewrite Hc.
Qed.

Lemma all_ok_or_raise tasks :
  (exists rs, tasks = map Ok rs)
  \/ (exists i e, nth_error tasks i = Some (Raise e)).
Proof.
  induction tasks as [ | [a | e] tasks IH].
  - left. now exists [].
  - destruct IH as [(rs & ->) | (i & e & Hi)].
    + left. now exists (a :: rs).
    + right. now exists (S i), e.
  - right. now exists O, e.
Qed.

(** A barrier that returns has seen every task succeed, and returns the
    tasks' results in task order. *)
Lemma gather_ok_inv tasks (completion : list nat) rs :
  Permutation completion (seq 0 (List.length tasks)) ->
  gather tasks completion = Ok rs -> tasks = map Ok rs.
Proof.
  intros Hperm Hg.
  destruct (all_ok_or_raise tasks) as [(rs' & ->) | (i & e & Hi)].
  - rewrite length_map in Hperm. rewrite gather_all_ok in Hg by assumption.
    congruence.
  - destruct (gather_raises tasks completion i e Hperm Hi) as (e' & Hr & _).
    congruence.
Qed.

End Gather.

(** ** The decomposer and the orchestrator *)

Section Orchestrator.
Context `{Ext : Externals}.
Variables (self : DRIFTPrimer) (query : string).

Lemma decompose_query_eq (fold : DataFrame) :
  decompose_query self query fold =
  match json_loads (fold_answer self query fold) with
  | None => Raise (JSONDecodeError (fold_answer self query fold))
  | Some parsed =>
      Ok (parsed,
          num_tokens (String.append (fold_prompt query fold)
                                    (fold_answer self query fold))
                     (token_encoder self))
  end.
Proof. reflexivity. Qed.

Lemma decompose_query_raise_inv (fold : DataFrame) (e : exn) :
  decompose_query self query fold = Raise e ->
  e = JSONDecodeError (fold_answer self query fold)
  /\ json_loads (fold_answer self query fold) = None.
Proof.
  rewrite decompose_query_eq.
  destruct (json_loads (fold_answer self query fold)); intros Heq;
    inversion Heq; auto.
Qed.

Lemma map_ok_Forall2 {X Y} (f : X -> result Y) (xs : list X) (ys : list Y) :
  map f xs = map Ok ys <-> Forall2 (fun x y => f x = Ok y) xs ys.
Proof.
  split.
  - revert ys. induction xs as [ | x xs IH]; intros [ | y ys] Heq;
      try discriminate; constructor; inversion Heq; auto.
  - induction 1 as [ | x y xs ys Hxy _ IH]; simpl; congruence.
Qed.

Lemma all_ok_Forall2 {X Y} (f : X -> result Y) (xs : list X) :
  (forall x, In x xs -> exists y, f x = Ok y) ->
  exists ys, Forall2 (fun x y => f x = Ok y) xs ys.
Proof.
  induction xs as [ | x xs IH]; intros Hall.
  - exists []. constructor.
  - destruct (Hall x (or_introl eq_refl)) as (y & Hy).
    destruct IH as (ys & Hys); [intros; apply Hall; now right | ].
    exists (y :: ys). now constructor.
Qed.

Lemma Forall2_fst_ok {X Y T} (f : X -> result (Y * T)) (xs : list X)
  (rs : list (Y * T)) :
  Forall2 (fun x r => f x = Ok r) xs rs ->
  Forall2 (fun x d => exists t, f x = Ok (d, t)) xs (map fst rs).
Proof.
  induction 1 as [ | x [d t] xs rs Hx _ IH]; simpl; constructor.
  - now exists t.
  - exact IH.
Qed.

Variables (completion : list nat) (clock : float * float)
          (top_k_reports : DataFrame).

Let folds := split_reports self top_k_reports.

Hypothesis every_task_completes :
  Permutation completion (seq 0 (List.length folds)).

(** When every fold decomposes, the search returns the folds' results,
    in fold order, and the sum of their token counts. *)
Lemma asearch_all_ok (rs : list (JSON * Z)) :
  Forall2 (fun fold r => decompose_query self query fold = Ok r) folds rs ->
  asearch self completion clock query top_k_reports =
  Ok {| response := map fst rs;
        context_data := [("top_k_reports"%string, top_k_reports)];
        context_text := df_str top_k_reports;
        completion_time := float_sub (snd clock) (fst clock);
        llm_calls := 2;
        prompt_tokens := sum (map snd rs) |}.
Proof.
  intros Hall. apply map_ok_Forall2 in Hall.
  unfold asearch. fold folds.
  change (fun fold : DataFrame => decompose_query self query fold)
    with (decompose_query self query).
  rewrite Hall.
  rewrite gather_all_ok; [reflexivity | ].
  replace (List.length rs) with (List.length folds); [assumption | ].
  apply (f_equal (@List.length _)) in Hall. now rewrite !length_map in Hall.
Qed.

(** A search that returns has seen every fold decompose. *)
Lemma asearch_ok_inv (res : SearchResult) :
  asearch self completion clock query top_k_reports = Ok res ->
  exists rs,
    Forall2 (fun fold r => decompose_query self query fold = Ok r) folds rs
    /\ response res = map fst rs
    /\ prompt_tokens res = sum (map snd rs)
    /\ llm_calls res = 2.
Proof.
  unfold asearch. fold folds.
  destruct (gather (map (fun fold => decompose_query self query fold) folds)
                   completion) as [rs | e] eqn:Hg; [ | discriminate].
  intros Heq. inversion Heq; subst res; clear Heq. exists rs.
  apply gather_ok_inv in Hg; [ | now rewrite length_map].
  apply map_ok_Forall2 in Hg. auto.
Qed.

(** A fold whose decomposition raises makes the search raise, with the
    exception of some fold. *)
Lemma asearch_raises (fold : DataFrame) (e : exn) :
  In fold folds -> decompose_query self query fold = Raise e ->
  exists fold' e',
    In fold' folds
    /\ decompose_query self query fold' = Raise e'
    /\ asearch self completion clock query top_k_reports = Raise e'.
Proof.
  intros Hin He.
  destruct (In_nth_error _ _ Hin) as (i & Hi).
  set (tasks := map (fun f => decompose_query self query f) folds).
  assert (Hti : nth_error tasks i = Some (Raise e)).
  { unfold tasks. rewrite nth_error_map, Hi. simpl. now rewrite He. }
  destruct (gather_raises tasks completion i e) as (e' & Hg & He');
    [unfold tasks; now rewrite length_map | assumption | ].
  unfold tasks in He'. apply in_map_iff in He'.
  destruct He' as (fold' & Hf' & Hin').
  exists fold', e'. repeat split; try assumption.
  unfold asearch. fold folds. fold tasks. now rewrite Hg.
Qed.

End Orchestrator.

(** [sum] adds the numbers up: it is the library's fold of [Z.add]. *)
Lemma sum_fold_right (l : list Z) : sum l = fold_right Z.add 0 l.
Proof.
  unfold sum.
  assert (Hgen : forall a, fold_left Z.add l a = a + fold_right Z.add 0 l).
  { induction l as [ | x l IH]; intros a; simpl; [lia | ]. rewrite IH. lia. }
  rewrite Hgen. lia.
Qed.

Section OrchestratorProperties.
Context `{Ext : Externals}.

(** C4.  Whatever the order in which the fold tasks complete, the
    [response] list of the result of [asearch] is in fold-creation order:
    its i-th element is the DecomposedResponse of the i-th fold.  The
    search returns whenever every fold decomposes. *)
Theorem asearch_preserves_fold_order (self : DRIFTPrimer) (query : string)
  (completion : list nat) (clock : float * float) (top_k_reports : DataFrame) :
  let folds := split_reports self top_k_reports in
  Permutation completion (seq 0 (List.length folds)) ->
  ((forall fold, In fold folds -> exists r, decompose_query self query fold = Ok r) ->
   exists res, asearch self completion clock query top_k_reports = Ok res)
  /\ (forall res, asearch self completion clock query top_k_reports = Ok res ->
      Forall2 (fun fold d => exists t, decompose_query self query fold = Ok (d, t))
              folds (response res)).
Proof.
  intros folds Hperm. split.
  - intros Hall.
    destruct (all_ok_Forall2 (decompose_query self query) folds Hall) as (rs & Hrs).
    eexists.
    exact (asearch_all_ok self query completion clock top_k_reports Hperm rs Hrs).
  - intros res Hres.
    destruct (asearch_ok_inv self query completion clock top_k_reports Hperm res Hres)
      as (rs & Hrs & Hresp & _).
    rewrite Hresp. apply Forall2_fst_ok. exact Hrs.
Qed.

(** C5.  If the model's answer for some fold is not valid JSON, the
    decoding error is not caught by [decompose_query], and [asearch]
    raises a decoding error for the whole call instead of returning a
    SearchResult, whatever the order of completion. *)
Theorem asearch_decode_error_propagates (self : DRIFTPrimer) (query : string)
  (completion : list nat) (clock : float * float) (top_k_reports : DataFrame)
  (fold : DataFrame) :
  let folds := split_reports self top_k_reports in
  Permutation completion (seq 0 (List.length folds)) ->
  In fold folds ->
  json_loads (fold_answer self query fold) = None ->
  decompose_query self query fold
  = Raise (JSONDecodeError (fold_answer self query fold))
  /\ (exists doc,
        asearch self completion clock query top_k_reports
        = Raise (JSONDecodeError doc)
        /\ json_loads doc = None)
  /\ (forall res, asearch self completion clock query top_k_reports <> Ok res).
Proof.
  intros folds Hperm Hin Hbad.
  assert (Hraise : decompose_query self query fold
                   = Raise (JSONDecodeError (fold_answer self query fold)))
    by (rewrite decompose_query_eq, Hbad; reflexivity).
  destruct (asearch_raises self query completion clock top_k_reports Hperm
              fold _ Hin Hraise) as (fold' & e' & _ & Hf' & Hsearch).
  apply decompose_query_raise_inv in Hf'. destruct Hf' as (-> & Hnone).
  split; [exact Hraise | split].
  - eexists. split; [exact Hsearch | exact Hnone].
  - intros res Hres. congruence.
Qed.

(** C6.  An empty fold is not an error.  The context block of an empty
    fold, the blank-line join of no report contents, is the empty string,
    and the prompt is rendered from it.  On a corpus of no reports with
    [primer_folds = 2] the partition is two empty folds, and [asearch]
    returns a result whose [response] has two entries, the model's parsed
    answer to the empty-context prompt twice (the model answering that
    prompt with valid JSON). *)
Theorem asearch_empty_corpus (self : DRIFTPrimer) (query : string)
  (completion : list nat) (clock : float * float) (d : JSON) :
  primer_folds (config self) = Some 2 ->
  Permutation completion [0; 1]%nat ->
  json_loads (fold_answer self query []) = Some d ->
  join (String.append nl nl) (map full_content []) = EmptyString
  /\ fold_prompt query [] = DRIFT_PRIMER_PROMPT_format query EmptyString
  /\ split_reports self [] = [[]; []]
  /\ exists res,
       asearch self completion clock query [] = Ok res
       /\ response res = [d; d]
       /\ List.length (response res) = 2%nat.
Proof.
  intros Hcfg Hperm Hjson.
  assert (Hsplit : split_reports self [] = [[]; []]).
  { unfold split_reports. rewrite Hcfg. reflexivity. }
  repeat split; try reflexivity; try assumption.
  set (t := num_tokens (String.append (fold_prompt query [])
                                      (fold_answer self query []))
                       (token_encoder self)).
  assert (Hd : decompose_query self query [] = Ok (d, t))
    by (rewrite decompose_query_eq, Hjson; reflexivity).
  eexists. split.
  - apply (asearch_all_ok self query completion clock [])
      with (rs := [(d, t); (d, t)]).
    + now rewrite Hsplit.
    + rewrite Hsplit. repeat constructor; assumption.
  - split; reflexivity.
Qed.

(** C7.  In every result [asearch] returns, [prompt_tokens] is the exact
    sum of the token counts that the per-fold decomposition calls report
    (the counts added up with [Z.add]), and [llm_calls] is [2], whatever
    the number of folds.  The search returns whenever every fold
    decomposes. *)
Theorem asearch_token_accounting (self : DRIFTPrimer) (query : string)
  (completion : list nat) (clock : float * float) (top_k_reports : DataFrame) :
  let folds := split_reports self top_k_reports in
  Permutation completion (seq 0 (List.length folds)) ->
  ((forall fold, In fold folds -> exists r, decompose_query self query fold = Ok r) ->
   exists res, asearch self completion clock query top_k_reports = Ok res)
  /\ (forall res, asearch self completion clock query top_k_reports = Ok res ->
      exists rs,
        Forall2 (fun fold r => decompose_query self query fold = Ok r) folds rs
        /\ prompt_tokens res = fold_right Z.add 0 (map snd rs)
        /\ llm_calls res = 2).
Proof.
  intros folds Hperm. split.
  - intros Hall.
    destruct (all_ok_Forall2 (decompose_query self query) folds Hall) as (rs & Hrs).
    eexists.
    exact (asearch_all_ok self query completion clock top_k_reports Hperm rs Hrs).
  - intros res Hres.
    destruct (asearch_ok_inv self query completion clock top_k_reports Hperm res Hres)
      as (rs & Hrs & _ & Htok & Hcalls).
    exists rs. rewrite <- sum_fold_right. auto.
Qed.

End OrchestratorProperties.

(** ** The query expander *)

Section ExpanderProperties.
Context `{Ext : Externals}.

Lemma drawn_report_in (rs : list CommunityReport) (w : World) (r : CommunityReport) :
  drawn_report rs w = Some r -> In r rs.
Proof.
  destruct rs as [ | x rs]; [discriminate | ].
  intros Heq.
  assert (Hin : In (nth (Nat.modulo (entropy w (draws w)) (List.length (x :: rs)))
                        (x :: rs) x) (x :: rs))
    by (apply nth_In, Nat.mod_upper_bound; discriminate).
  unfold drawn_report in Heq. congruence.
Qed.

Lemma drawn_report_some (rs : list CommunityReport) (w : World) :
  rs <> [] -> exists r, drawn_report rs w = Some r.
Proof. destruct rs; [congruence | ]. intros _. eexists. reflexivity. Qed.

(** [expand_query] on a corpus from which the report [r] is drawn. *)
Lemma expand_query_drawn (self : PrimerQueryProcessor) (query : string)
  (w : World) (r : CommunityReport) :
  drawn_report (reports self) w = Some r ->
  let text := expansion_text self query r in
  let token_ct := num_tokens (String.append text query) None in
  let w' := mkWorld (entropy w) (S (draws w))
                    (llm_requests w ++ [expansion_request query r])
                    (log_records w) in
  expand_query self query w =
  if String.eqb text EmptyString then
    (Ok (query, token_ct),
     mkWorld (entropy w') (draws w') (llm_requests w')
             (log_records w'
              ++ [(WARNING,
                   String.append "Failed to generate expansion for query: " query)]))
  else (Ok (text, token_ct), w').
Proof.
  unfold drawn_report, expand_query, expansion_text, expansion_request.
  destruct (reports self) as [ | x rs] eqn:Hrs; [discriminate | ].
  intros Heq.
  assert (Hr : nth (Nat.modulo (entropy w (draws w)) (List.length (x :: rs)))
                   (x :: rs) x = r) by congruence.
  clear Heq.
  unfold bind, secrets_choice, llm_generate, log_emit, ret.
  rewrite Hr. cbn [entropy draws llm_requests log_records].
  destruct (String.eqb _ EmptyString); reflexivity.
Qed.

(** [expand_query] on an empty corpus: the draw raises and the world is
    left as it was. *)
Lemma expand_query_raises_on_empty (self : PrimerQueryProcessor)
  (query : string) (w : World) :
  reports self = [] ->
  expand_query self query w
  = (Raise (IndexError "Cannot choose from an empty sequence"), w).
Proof.
  intros Hempty. unfold expand_query, bind, secrets_choice. now rewrite Hempty.
Qed.

(** C1 (as amended).  If the model's single-turn completion, requested
    for the template drawn from the corpus, is the empty string, then
    [expand_query] returns the original query unchanged, logs the warning,
    and reports the token count of the empty output followed by the
    query: the query counted once. *)
Theorem expand_query_fallback (self : PrimerQueryProcessor) (query : string)
  (w : World) (r : CommunityReport) :
  drawn_report (reports self) w = Some r ->
  expansion_text self query r = EmptyString ->
  fst (expand_query self query w)
  = Ok (query, num_tokens (String.append EmptyString query) None)
  /\ num_tokens (String.append EmptyString query) None = num_tokens query None
  /\ llm_requests (snd (expand_query self query w))
     = llm_requests w ++ [expansion_request query r]
  /\ log_records (snd (expand_query self query w))
     = log_records w
       ++ [(WARNING, String.append "Failed to generate expansion for query: " query)].
Proof.
  intros Hr Hempty.
  rewrite (expand_query_drawn self query w r Hr), Hempty.
  repeat split.
Qed.

(** C9.  On an empty corpus [expand_query] raises [IndexError], from the
    template draw: the world is left as it was, so no request was sent
    to the model and no warning logged, and no expansion or fallback
    result is returned. *)
Theorem expand_query_empty_corpus (self : PrimerQueryProcessor) (query : string)
  (w : World) :
  reports self = [] ->
  expand_query self query w
  = (Raise (IndexError "Cannot choose from an empty sequence"), w)
  /\ llm_requests (snd (expand_query self query w)) = llm_requests w
  /\ log_records (snd (expand_query self query w)) = log_records w
  /\ (forall r w', expand_query self query w <> (Ok r, w')).
Proof.
  intros Hempty.
  assert (Hraise : expand_query self query w
                   = (Raise (IndexError "Cannot choose from an empty sequence"), w)).
  { unfold expand_query, bind, secrets_choice. now rewrite Hempty. }
  rewrite Hraise. repeat split. intros r w' Heq. discriminate.
Qed.

(** C10.  [expand_query] counts tokens with the default encoding whatever
    token encoder the processor stores: storing another encoder changes
    nothing, and a returned count is the number of tokens the default
    encoding gives to the model output followed by the query.
    [decompose_query] hands the token encoder configured in the primer to
    the token counter, so that a configured encoder is the one that
    counts. *)
Theorem token_encoder_use (self : PrimerQueryProcessor) (enc : option Encoding)
  (query : string) (w : World)
  (primer : DRIFTPrimer) (fold : DataFrame) (d : JSON) :
  json_loads (fold_answer primer query fold) = Some d ->
  let counted := String.append (fold_prompt query fold)
                               (fold_answer primer query fold) in
  expand_query (with_token_encoder self enc) query w = expand_query self query w
  /\ (forall out token_ct w',
        expand_query self query w = (Ok (out, token_ct), w') ->
        exists r,
          In r (reports self)
          /\ token_ct = num_tokens (String.append (expansion_text self query r) query)
                                   None
          /\ token_ct = Z.of_nat (List.length
                 (encode cl100k_base
                    (String.append (expansion_text self query r) query))))
  /\ decompose_query primer query fold
     = Ok (d, num_tokens counted (token_encoder primer))
  /\ (forall e, token_encoder primer = Some e ->
        decompose_query primer query fold
        = Ok (d, Z.of_nat (List.length (encode e counted)))).
Proof.
  intros Hjson counted. split; [reflexivity | split; [ | split]].
  - intros out token_ct w' Hres.
    destruct (reports self) as [ | x rs] eqn:Hrs.
    + rewrite (expand_query_raises_on_empty self query w Hrs) in Hres.
      discriminate.
    + destruct (drawn_report_some (reports self) w) as (r & Hr);
        [rewrite Hrs; discriminate | ].
      exists r. split; [rewrite <- Hrs; eapply drawn_report_in; eassumption | ].
      rewrite (expand_query_drawn self query w r Hr) in Hres.
      destruct (String.eqb _ EmptyString); injection Hres as _ <- _;
        split; reflexivity.
  - rewrite decompose_query_eq, Hjson. reflexivity.
  - intros e Henc. rewrite decompose_query_eq, Hjson.
    unfold num_tokens. now rewrite Henc.
Qed.

End ExpanderProperties.

(** ** Further properties of the query expander *)

Section ExpanderBehaviour.
Context `{Ext : Externals}.

(** X1.  On a non-empty corpus [expand_query] does not raise.  It
    consumes one random draw and sends exactly one request to the model: a
    single user message rendered from the query and a report of the
    corpus; the token count is that of the model's output followed by the
    query. *)
Theorem expand_query_one_request (self : PrimerQueryProcessor) (query : string)
  (w : World) :
  reports self <> [] ->
  exists r out w',
    In r (reports self)
    /\ expand_query self query w
       = (Ok (out, num_tokens (String.append (expansion_text self query r) query) None),
          w')
    /\ llm_requests w' = llm_requests w ++ [expansion_request query r]
    /\ draws w' = S (draws w)
    /\ entropy w' = entropy w.
Proof.
  intros Hne.
  destruct (drawn_report_some (reports self) w Hne) as (r & Hr).
  exists r. rewrite (expand_query_drawn self query w r Hr).
  destruct (String.eqb _ EmptyString); do 2 eexists;
    (split; [eapply drawn_report_in; eassumption | ]);
    (split; [reflexivity | ]); repeat split.
Qed.

(** X2.  The text [expand_query] returns is never empty when the query is
    not: an empty model output is replaced by the query. *)
Theorem expand_query_text_not_empty (self : PrimerQueryProcessor)
  (query : string) (w : World) (out : string) (token_ct : Z) (w' : World) :
  query <> EmptyString ->
  expand_query self query w = (Ok (out, token_ct), w') ->
  out <> EmptyString.
Proof.
  intros Hq Hres.
  destruct (reports self) as [ | x rs] eqn:Hrs.
  - rewrite (expand_query_raises_on_empty self query w Hrs) in Hres. discriminate.
  - destruct (drawn_report_some (reports self) w) as (r & Hr);
      [rewrite Hrs; discriminate | ].
    rewrite (expand_query_drawn self query w r Hr) in Hres.
    destruct (String.eqb_spec (expansion_text self query r) EmptyString) as [_ | Hne];
      injection Hres as <- _ _; assumption.
Qed.

(** X3.  When the report [r] is drawn and the model's output for it is
    not empty, [expand_query] returns that output verbatim and logs
    nothing; a warning, naming the query, is logged exactly when the
    output is empty. *)
Theorem expand_query_warns_iff_empty (self : PrimerQueryProcessor)
  (query : string) (w : World) (r : CommunityReport) :
  drawn_report (reports self) w = Some r ->
  let text := expansion_text self query r in
  (text <> EmptyString ->
   fst (expand_query self query w)
   = Ok (text, num_tokens (String.append text query) None)
   /\ log_records (snd (expand_query self query w)) = log_records w)
  /\ (text = EmptyString <->
      log_records (snd (expand_query self query w))
      = log_records w ++ [warning_record query]).
Proof.
  intros Hr text. rewrite (expand_query_drawn self query w r Hr). fold text.
  destruct (String.eqb_spec text EmptyString) as [Hempty | Hne]; cbn [fst snd log_records].
  - split; [intros Hne; contradiction | ]. split; [reflexivity | auto].
  - split; [intros _; split; reflexivity | ].
    split; [intros Hempty; contradiction | ].
    intros Hlog. exfalso.
    apply (f_equal (@List.length _)) in Hlog. rewrite length_app in Hlog.
    simpl in Hlog. lia.
Qed.

(** X5.  Calling the processor on an empty corpus raises [IndexError]
    and returns no embedding; no request is sent to the model and nothing
    is logged, not even the expanded-query record. *)
Theorem call_empty_corpus (self : PrimerQueryProcessor) (query : string)
  (w : World) :
  reports self = [] ->
  call self query w
  = (Raise (IndexError "Cannot choose from an empty sequence"), w)
  /\ llm_requests (snd (call self query w)) = llm_requests w
  /\ log_records (snd (call self query w)) = log_records w
  /\ (forall vector token_ct w', call self query w <> (Ok (vector, token_ct), w')).
Proof.
  intros Hempty.
  assert (Hraise : call self query w
                   = (Raise (IndexError "Cannot choose from an empty sequence"), w)).
  { unfold call, bind.
    now rewrite (expand_query_raises_on_empty self query w Hempty). }
  rewrite Hraise. repeat split. intros vector token_ct w' Heq. discriminate.
Qed.

(** X6.  When the model returns the empty string for every template of a
    non-empty corpus, calling the processor embeds the original query
    itself, with the token count of the query alone, and logs the warning
    followed by the expanded-query record. *)
Theorem call_fallback_embeds_query (self : PrimerQueryProcessor)
  (query : string) (w : World) :
  reports self <> [] ->
  (forall r, In r (reports self) -> expansion_text self query r = EmptyString) ->
  fst (call self query w)
  = Ok (embed (text_embedder self) query, num_tokens query None)
  /\ log_records (snd (call self query w))
     = log_records w ++ [warning_record query; info_record query].
Proof.
  intros Hne Hempty.
  destruct (drawn_report_some (reports self) w Hne) as (r & Hr).
  unfold call, bind. rewrite (expand_query_drawn self query w r Hr).
  rewrite (Hempty r (drawn_report_in _ _ _ Hr)).
  cbn [String.eqb fst snd log_emit ret log_records].
  split; [reflexivity | ]. now rewrite <- app_assoc.
Qed.

End ExpanderBehaviour.

(** ** Further properties of the partition *)

Lemma split_reports_concat (self : DRIFTPrimer) (reports : DataFrame) (k : Z) :
  primer_folds (config self) = Some k -> 1 <= k ->
  List.concat (split_reports self reports) = reports.
Proof.
  intros Hcfg Hk. rewrite (split_reports_rows self reports k Hcfg Hk).
  set (n := Z.of_nat (List.length reports)).
  unfold range.
  rewrite (concat_rows reports (fun i => i * n / k) (Z.to_nat k)).
  - rewrite Z2Nat.id, bound_last by lia. rewrite Z.mul_0_l, Z.div_0_l by lia.
    apply rows_all.
  - intros i j Hij. split; [apply bound_nonneg | apply bound_mono]; lia.
Qed.

(** A fold count that divides the corpus size makes every step equal. *)
Lemma bound_step_even k n i :
  1 <= k -> n mod k = 0 -> (i + 1) * n / k - i * n / k = n / k.
Proof.
  intros Hk Hmod.
  assert (Hn : n = n / k * k).
  { pose proof (Z.div_mod n k ltac:(lia)). lia. }
  rewrite Hn at 1 2.
  rewrite !Z.mul_assoc, !Z.div_mul by lia. ring.
Qed.

(** The quotient rounded up. *)
Lemma ceil_div k n :
  1 <= k ->
  (n + k - 1) / k = if n mod k =? 0 then n / k else n / k + 1.
Proof.
  intros Hk.
  pose proof (Z.div_mod n k ltac:(lia)) as Hn.
  pose proof (Z.mod_pos_bound n k ltac:(lia)) as Hr.
  destruct (Z.eqb_spec (n mod k) 0) as [Hz | Hnz].
  - symmetry. apply (Z.div_unique _ _ _ (k - 1)); lia.
  - symmetry. apply (Z.div_unique _ _ _ (n mod k - 1)); lia.
Qed.

Lemma bound_step_ceil k n i :
  1 <= k -> n / k <= (i + 1) * n / k - i * n / k <= (n + k - 1) / k.
Proof.
  intros Hk. rewrite ceil_div by assumption.
  destruct (Z.eqb_spec (n mod k) 0) as [Hz | Hnz].
  - rewrite bound_step_even by assumption. lia.
  - now apply bound_step.
Qed.

Lemma within_extremes (l : list Z) (x : Z) :
  In x l -> minimum l <= x <= maximum l.
Proof.
  unfold minimum, maximum. generalize (hd 0 l) as d.
  induction l as [ | y l IH]; intros d Hin; [contradiction | ].
  simpl. destruct Hin as [-> | Hin]; [lia | ].
  specialize (IH d Hin). lia.
Qed.

(** A list of numbers that are all [q] or [q + 1] adds up to [q] times
    its length plus the number of its [q + 1]. *)
Lemma two_valued_total (l : list Z) (q : Z) :
  Forall (fun x => q <= x <= q + 1) l ->
  fold_right Z.add 0 l
  = q * Z.of_nat (List.length l) + Z.of_nat (count_occ Z.eq_dec l (q + 1)).
Proof.
  induction 1 as [ | x l Hx _ IH]; [simpl; lia | ].
  cbn [fold_right List.length count_occ]. rewrite IH.
  destruct (Z.eq_dec x (q + 1)); lia.
Qed.

Lemma concat_total {A} (l : list (list A)) :
  Z.of_nat (List.length (List.concat l))
  = fold_right Z.add 0 (map (fun f => Z.of_nat (List.length f)) l).
Proof.
  induction l as [ | f l IH]; [reflexivity | ].
  simpl. rewrite length_app. lia.
Qed.

Lemma rows_nth_error {A} (df : list A) lo hi (j : nat) :
  0 <= lo ->
  (j < List.length (rows df lo hi))%nat ->
  nth_error (rows df lo hi) j = nth_error df (Z.to_nat lo + j).
Proof.
  intros Hlo Hj. unfold rows in *.
  rewrite length_firstn in Hj.
  rewrite nth_error_firstn, nth_error_skipn.
  destruct (Nat.ltb_spec j (Z.to_nat (hi - lo))); [reflexivity | lia].
Qed.

Lemma rows_unit {A} (df : list A) (i : nat) :
  rows df (Z.of_nat i) (Z.of_nat i + 1)
  = match nth_error df i with
    | Some r => [r]
    | None => []
    end.
Proof.
  unfold rows. replace (Z.to_nat (Z.of_nat i + 1 - Z.of_nat i)) with 1%nat by lia.
  rewrite Nat2Z.id. revert i.
  induction df as [ | x df IH]; intros [ | i]; try reflexivity.
  rewrite skipn_cons. apply IH.
Qed.

Lemma unit_rows_all {A} (df : list A) :
  map (fun i => rows df (Z.of_nat i) (Z.of_nat i + 1)) (seq 0 (List.length df))
  = map (fun r => [r]) df.
Proof.
  induction df as [ | x df IH]; [reflexivity | ].
  cbn [List.length seq map]. f_equal.
  rewrite <- seq_shift, map_map, <- IH. apply map_ext.
  intros i. rewrite !rows_unit. reflexivity.
Qed.

Section PartitionBehaviour.
Variables (self : DRIFTPrimer) (reports : DataFrame).

Let n := Z.of_nat (List.length reports).
Let folds := split_reports self reports.
Let sizes := fold_sizes folds.

(** X7.  For every configuration the number of folds is the configured
    count, with [1] standing in for a count that is unset or [0], and no
    fold at all for a negative count. *)
Theorem split_reports_fold_count :
  List.length folds = Z.to_nat (or_default (primer_folds (config self)) 1)
  /\ (forall k, primer_folds (config self) = Some k -> k < 0 -> folds = []).
Proof.
  unfold folds. rewrite split_reports_map. split.
  - unfold range. now rewrite !length_map, length_seq.
  - intros k Hcfg Hk. rewrite Hcfg. simpl.
    destruct (Z.eqb_spec k 0); [lia | ].
    unfold range. now replace (Z.to_nat k) with O by lia.
Qed.

(** X8.  With at least as many reports as folds, no fold is empty. *)
Theorem split_reports_no_empty_fold (k : Z) :
  primer_folds (config self) = Some k -> 1 <= k <= n ->
  Forall (fun fold => fold <> []) folds.
Proof.
  intros Hcfg Hk. apply Forall_forall. intros fold Hin Hnil.
  assert (Hsz : In (Z.of_nat (List.length fold)) sizes)
    by (exact (in_map (fun f : DataFrame => Z.of_nat (List.length f)) folds fold Hin)).
  unfold sizes, folds in Hsz.
  rewrite (fold_sizes_split self reports k Hcfg) in Hsz by lia.
  apply in_map_iff in Hsz. destruct Hsz as (i & Hi & _).
  pose proof (bound_step k n i ltac:(lia)) as Hstep. fold n in Hi.
  assert (1 <= n / k) by (apply Z.div_le_lower_bound; lia).
  subst fold. simpl in Hi. lia.
Qed.

(** X9.  When the fold count divides the corpus size, every fold has the
    same size, the quotient. *)
Theorem split_reports_even (k : Z) :
  primer_folds (config self) = Some k -> 1 <= k -> n mod k = 0 ->
  sizes = repeat (n / k) (Z.to_nat k).
Proof.
  intros Hcfg Hk Hmod. unfold sizes, folds.
  rewrite (fold_sizes_split self reports k Hcfg Hk). fold n.
  rewrite (map_ext _ (fun _ => n / k)).
  - rewrite map_const. unfold range. now rewrite length_map, length_seq.
  - intros i. now apply bound_step_even.
Qed.

(** X10.  The first fold is a smallest fold, of [n // k] reports, and the
    last fold is a largest one, of [n // k] rounded up. *)
Theorem split_reports_extreme_folds (k : Z) :
  primer_folds (config self) = Some k -> 1 <= k ->
  nth_error sizes O = Some (n / k)
  /\ nth_error sizes (Z.to_nat (k - 1)) = Some ((n + k - 1) / k)
  /\ minimum sizes = n / k
  /\ maximum sizes = (n + k - 1) / k.
Proof.
  intros Hcfg Hk.
  assert (Hsz : sizes = map (fun i => (i + 1) * n / k - i * n / k) (range k))
    by (apply fold_sizes_split; assumption).
  assert (Hn : 0 <= n) by (unfold n; lia).
  assert (Hfirst : nth_error sizes O = Some (n / k)).
  { pose proof (nth_error_range (fun i => (i + 1) * n / k - i * n / k) k 0
                  ltac:(lia)) as H0.
    change (Z.to_nat 0) with O in H0. rewrite Hsz, H0.
    rewrite Z.mul_0_l, Z.add_0_l, Z.mul_1_l, Z.div_0_l by lia.
    now rewrite Z.sub_0_r. }
  assert (Hlast : nth_error sizes (Z.to_nat (k - 1)) = Some ((n + k - 1) / k)).
  { rewrite Hsz.
    rewrite (nth_error_range (fun i => (i + 1) * n / k - i * n / k) k (k - 1)) by lia.
    f_equal. replace (k - 1 + 1) with k by lia. rewrite bound_last by lia.
    pose proof (Z.div_mod n k ltac:(lia)) as Hdm.
    pose proof (Z.mod_pos_bound n k ltac:(lia)) as Hr.
    rewrite ceil_div by lia.
    destruct (Z.eqb_spec (n mod k) 0) as [Hz | Hnz].
    - assert (Hq : (k - 1) * n / k = (k - 1) * (n / k)).
      { symmetry. apply (Z.div_unique _ _ _ 0); nia. }
      rewrite Hq. nia.
    - assert (Hq : (k - 1) * n / k = (k - 1) * (n / k) + (n mod k - 1)).
      { symmetry. apply (Z.div_unique _ _ _ (k - n mod k)); nia. }
      rewrite Hq. nia. }
  assert (Hall : Forall (fun x => n / k <= x <= (n + k - 1) / k) sizes).
  { rewrite Hsz. apply Forall_forall. intros x Hx.
    apply in_map_iff in Hx. destruct Hx as (i & <- & _).
    now apply bound_step_ceil. }
  assert (Hne : sizes <> []) by (intros Heq; rewrite Heq in Hfirst; discriminate).
  destruct (spread_within sizes _ _ Hne Hall) as (Hmin & Hmax).
  pose proof (within_extremes sizes _ (nth_error_In _ _ Hfirst)) as Hf.
  pose proof (within_extremes sizes _ (nth_error_In _ _ Hlast)) as Hl.
  repeat split; try assumption; lia.
Qed.

(** X11.  The folds that hold one report more than the quotient are as
    many as the remainder of the corpus size by the fold count. *)
Theorem split_reports_larger_folds (k : Z) :
  primer_folds (config self) = Some k -> 1 <= k ->
  Z.of_nat (count_occ Z.eq_dec sizes (n / k + 1)) = n mod k.
Proof.
  intros Hcfg Hk.
  assert (Hsz : sizes = map (fun i => (i + 1) * n / k - i * n / k) (range k))
    by (apply fold_sizes_split; assumption).
  assert (Hall : Forall (fun x => n / k <= x <= n / k + 1) sizes).
  { rewrite Hsz. apply Forall_forall. intros x Hx.
    apply in_map_iff in Hx. destruct Hx as (i & <- & _).
    now apply bound_step. }
  pose proof (two_valued_total sizes (n / k) Hall) as Htotal.
  assert (Hsum : fold_right Z.add 0 sizes = n).
  { unfold sizes, fold_sizes. rewrite <- concat_total. unfold folds.
    now rewrite (split_reports_concat self reports k Hcfg Hk). }
  assert (Hlen : Z.of_nat (List.length sizes) = k).
  { rewrite Hsz, length_map. apply range_length. lia. }
  rewrite Hsum, Hlen in Htotal.
  pose proof (Z.div_mod n k ltac:(lia)). lia.
Qed.

(** X12.  Fold [i] holds the reports that follow position [i * n // k] of
    the corpus: its [j]-th row is the corpus row at [i * n // k + j]. *)
Theorem split_reports_lookup (k i : Z) :
  primer_folds (config self) = Some k -> 1 <= k -> 0 <= i < k ->
  exists fold,
    nth_error folds (Z.to_nat i) = Some fold
    /\ Z.of_nat (List.length fold) = (i + 1) * n / k - i * n / k
    /\ forall j, (j < List.length fold)%nat ->
         nth_error fold j = nth_error reports (Z.to_nat (i * n / k) + j).
Proof.
  intros Hcfg Hk Hi. unfold folds.
  rewrite (split_reports_rows self reports k Hcfg Hk). fold n.
  assert (Hn : 0 <= n) by (unfold n; lia).
  exists (rows reports (i * n / k) ((i + 1) * n / k)). split; [ | split].
  - now apply (nth_error_range (fun i => rows reports (i * n / k) ((i + 1) * n / k))).
  - apply rows_length.
    + split; [apply bound_nonneg | apply bound_mono]; lia.
    + apply bound_le_total; lia.
  - intros j Hj. apply rows_nth_error; [ | assumption].
    apply bound_nonneg; lia.
Qed.

(** X13.  With exactly as many folds as reports, every fold is a single
    report, in corpus order. *)
Theorem split_reports_singletons :
  primer_folds (config self) = Some n -> 1 <= n ->
  folds = map (fun r => [r]) reports.
Proof.
  intros Hcfg Hn. unfold folds.
  rewrite (split_reports_rows self reports n Hcfg Hn). fold n.
  unfold range. rewrite map_map.
  replace (Z.to_nat n) with (List.length reports) by (unfold n; lia).
  rewrite <- unit_rows_all. apply map_ext. intros i.
  now rewrite !Z.div_mul by lia.
Qed.

End PartitionBehaviour.

(** ** Further properties of the orchestrator *)

Lemma split_reports_length (self : DRIFTPrimer) (reports : DataFrame) :
  List.length (split_reports self reports)
  = Z.to_nat (or_default (primer_folds (config self)) 1).
Proof.
  rewrite split_reports_map. unfold range. now rewrite !length_map, length_seq.
Qed.

Lemma split_reports_one (self : DRIFTPrimer) (reports : DataFrame) :
  or_default (primer_folds (config self)) 1 = 1 ->
  split_reports self reports = [reports].
Proof.
  intros Hone. rewrite split_reports_map, Hone.
  change (range 1) with [0]. cbn [map].
  rewrite end_idx_uniform by lia. unfold start_idx.
  rewrite Z.mul_0_l, Z.add_0_l, Z.mul_1_l, Z.div_0_l, Z.div_1_r by lia.
  rewrite iloc_rows by lia. now rewrite rows_all.
Qed.

Lemma sum_from (l : list Z) (a : Z) : fold_left Z.add l a = a + sum l.
Proof.
  unfold sum. revert a. induction l as [ | x l IH]; intros a; simpl; [lia | ].
  rewrite (IH (a + x)), (IH x). lia.
Qed.

Lemma sum_nonneg (l : list Z) : Forall (fun x => 0 <= x) l -> 0 <= sum l.
Proof.
  induction 1 as [ | x l Hx _ IH]; [unfold sum; simpl; lia | ].
  unfold sum. simpl. rewrite sum_from. lia.
Qed.

Section OrchestratorBehaviour.
Context `{Ext : Externals}.
Variables (self : DRIFTPrimer) (query : string) (clock : float * float)
          (top_k_reports : DataFrame).

Let folds := split_reports self top_k_reports.

Lemma decompose_query_ok_iff (fold : DataFrame) :
  (exists r, decompose_query self query fold = Ok r)
  <-> json_loads (fold_answer self query fold) <> None.
Proof.
  rewrite decompose_query_eq.
  destruct (json_loads (fold_answer self query fold)) as [d | ]; split.
  - discriminate.
  - intros _. eexists. reflexivity.
  - intros (r & Hr). discriminate.
  - congruence.
Qed.

Lemma decompose_query_ok_tokens (fold : DataFrame) (r : JSON * Z) :
  decompose_query self query fold = Ok r -> snd r = fold_tokens self query fold.
Proof.
  rewrite decompose_query_eq.
  destruct (json_loads (fold_answer self query fold)); [ | discriminate].
  intros Heq. injection Heq as <-. reflexivity.
Qed.

Lemma Forall2_tokens (fs : list DataFrame) (rs : list (JSON * Z)) :
  Forall2 (fun fold r => decompose_query self query fold = Ok r) fs rs ->
  map snd rs = map (fold_tokens self query) fs.
Proof.
  induction 1 as [ | fold r fs rs Hr _ IH]; [reflexivity | ].
  simpl. now rewrite IH, (decompose_query_ok_tokens fold r Hr).
Qed.

(** X14.  Whatever the order of completion, [asearch] returns a result
    exactly when the model's answer for every fold parses as JSON. *)
Theorem asearch_returns_iff_all_parse (completion : list nat) :
  Permutation completion (seq 0 (List.length folds)) ->
  (exists res, asearch self completion clock query top_k_reports = Ok res)
  <-> (forall fold, In fold folds ->
         json_loads (fold_answer self query fold) <> None).
Proof.
  intros Hperm. split.
  - intros (res & Hres) fold Hin.
    destruct (asearch_ok_inv self query completion clock top_k_reports Hperm res Hres)
      as (rs & Hrs & _).
    apply decompose_query_ok_iff.
    fold folds in Hrs. clear Hperm Hres. clearbody folds.
    induction Hrs as [ | f r fs rs Hf _ IH]; [contradiction | ].
    destruct Hin as [<- | Hin]; [now exists r | now apply IH].
  - intros Hall.
    destruct (all_ok_Forall2 (decompose_query self query) folds) as (rs & Hrs).
    + intros fold Hin. apply decompose_query_ok_iff. now apply Hall.
    + eexists.
      exact (asearch_all_ok self query completion clock top_k_reports Hperm rs Hrs).
Qed.

(** X15.  A result of [asearch] does not depend on the order in which the
    fold tasks complete, and neither does whether it raises. *)
Theorem asearch_order_independent (c1 c2 : list nat) :
  Permutation c1 (seq 0 (List.length folds)) ->
  Permutation c2 (seq 0 (List.length folds)) ->
  (forall res, asearch self c1 clock query top_k_reports = Ok res ->
               asearch self c2 clock query top_k_reports = Ok res)
  /\ ((exists e, asearch self c1 clock query top_k_reports = Raise e) ->
      exists e, asearch self c2 clock query top_k_reports = Raise e).
Proof.
  intros H1 H2.
  assert (Hsame : forall ca cb,
            Permutation ca (seq 0 (List.length folds)) ->
            Permutation cb (seq 0 (List.length folds)) ->
            forall res, asearch self ca clock query top_k_reports = Ok res ->
                        asearch self cb clock query top_k_reports = Ok res).
  { intros ca cb Ha Hb res Hres.
    destruct (asearch_ok_inv self query ca clock top_k_reports Ha res Hres)
      as (rs & Hrs & _).
    rewrite (asearch_all_ok self query ca clock top_k_reports Ha rs Hrs) in Hres.
    rewrite (asearch_all_ok self query cb clock top_k_reports Hb rs Hrs).
    exact Hres. }
  split; [now apply Hsame | ].
  intros (e & He).
  destruct (asearch self c2 clock query top_k_reports) as [res | e'] eqn:H2res.
  - rewrite (Hsame c2 c1 H2 H1 res H2res) in He. discriminate.
  - now exists e'.
Qed.

(** X16.  A result of [asearch] has one response per fold: as many as the
    configured fold count, [1] standing in for a count unset or [0]. *)
Theorem asearch_response_count (completion : list nat) (res : SearchResult) :
  Permutation completion (seq 0 (List.length folds)) ->
  asearch self completion clock query top_k_reports = Ok res ->
  List.length (response res)
  = Z.to_nat (or_default (primer_folds (config self)) 1).
Proof.
  intros Hperm Hres.
  destruct (asearch_ok_inv self query completion clock top_k_reports Hperm res Hres)
    as (rs & Hrs & Hresp & _).
  rewrite Hresp, length_map, <- (Forall2_length Hrs).
  apply split_reports_length.
Qed.

(** X17.  In a result of [asearch], [prompt_tokens] is the sum over the
    folds (the counts added up with [Z.add]) of the tokens of each fold's
    prompt followed by the model's raw answer to it, and is never
    negative. *)
Theorem asearch_prompt_tokens_total (completion : list nat) (res : SearchResult) :
  Permutation completion (seq 0 (List.length folds)) ->
  asearch self completion clock query top_k_reports = Ok res ->
  prompt_tokens res = fold_right Z.add 0 (map (fold_tokens self query) folds)
  /\ 0 <= prompt_tokens res.
Proof.
  intros Hperm Hres.
  destruct (asearch_ok_inv self query completion clock top_k_reports Hperm res Hres)
    as (rs & Hrs & _ & Htok & _).
  rewrite Htok, (Forall2_tokens _ _ Hrs), sum_fold_right. split; [reflexivity | ].
  rewrite <- sum_fold_right.
  apply sum_nonneg, Forall_forall. intros x Hx.
  apply in_map_iff in Hx. destruct Hx as (fold & <- & _).
  unfold fold_tokens, num_tokens. lia.
Qed.

(** X18.  With a single fold (a fold count of [1], [0] or none) the
    search is one decomposition of the whole corpus: when the model's
    answer parses, the response list holds that one parsed answer and
    [prompt_tokens] is the token count of that one call. *)
Theorem asearch_single_fold (d : JSON) :
  or_default (primer_folds (config self)) 1 = 1 ->
  json_loads (fold_answer self query top_k_reports) = Some d ->
  asearch self [O] clock query top_k_reports
  = Ok {| response := [d];
          context_data := [("top_k_reports"%string, top_k_reports)];
          context_text := df_str top_k_reports;
          completion_time := float_sub (snd clock) (fst clock);
          llm_calls := 2;
          prompt_tokens := fold_tokens self query top_k_reports |}.
Proof.
  intros Hone Hjson.
  pose proof (split_reports_one self top_k_reports Hone) as Hsplit.
  assert (Hd : decompose_query self query top_k_reports
               = Ok (d, fold_tokens self query top_k_reports))
    by (rewrite decompose_query_eq, Hjson; reflexivity).
  rewrite (asearch_all_ok self query [O] clock top_k_reports)
    with (rs := [(d, fold_tokens self query top_k_reports)]).
  - reflexivity.
  - rewrite Hsplit. apply Permutation_refl.
  - rewrite Hsplit. repeat constructor. exact Hd.
Qed.

(** X19.  A negative fold count drops the corpus from the search: the
    partition is empty, so there is no fold to decompose and no task to
    wait for, and [asearch] returns a result with no response and no
    prompt tokens, which still reports two model calls and carries the
    whole corpus as context. *)
Theorem asearch_negative_folds (k : Z) (completion : list nat) :
  primer_folds (config self) = Some k -> k < 0 ->
  split_reports self top_k_reports = []
  /\ map (fun fold => decompose_query self query fold)
         (split_reports self top_k_reports) = []
  /\ asearch self completion clock query top_k_reports
     = Ok {| response := [];
             context_data := [("top_k_reports"%string, top_k_reports)];
             context_text := df_str top_k_reports;
             completion_time := float_sub (snd clock) (fst clock);
             llm_calls := 2;
             prompt_tokens := 0 |}.
Proof.
  intros Hcfg Hk.
  assert (Hnone : split_reports self top_k_reports = []).
  { apply length_zero_iff_nil. rewrite split_reports_length, Hcfg. simpl.
    destruct (Z.eqb_spec k 0); lia. }
  split; [exact Hnone | split; [now rewrite Hnone | ]].
  unfold asearch. rewrite Hnone. cbn [map]. unfold gather.
  assert (Hc : as_completed (@nil (result (JSON * Z))) completion = Ok []).
  { induction completion as [ | i rest IH]; [reflexivity | ].
    cbn [as_completed]. now rewrite nth_error_nil. }
  rewrite Hc. reflexivity.
Qed.

End OrchestratorBehaviour.



(** ** The model at concrete inputs *)

#[local] Existing Instance demo_externals.

(** C1, the claim as first stated.  With digits grouped in threes as by
    [cl100k_base], a model that returns the empty string and the query
    [123], the fallback reports one token, the query counted once, and
    not the two tokens of the query counted twice. *)
Lemma expand_query_fallback_counts_once_counterexample :
  let self := digits_processor quiet_llm None (demo_reports 1) in
  let query := "123"%string in
  (forall messages, generate (@chat_llm digits_externals self) messages = EmptyString)
  /\ fst (@expand_query digits_externals self query demo_world) = Ok (query, 1)
  /\ @num_tokens digits_externals (String.append query query) None = 2
  /\ fst (@expand_query digits_externals self query demo_world)
     <> Ok (query, @num_tokens digits_externals (String.append query query) None).
Proof.
  split; [intros messages; reflexivity | ].
  split; [reflexivity | split; [reflexivity | ]].
  vm_compute. discriminate.
Qed.

Lemma expand_query_fallback_witness :
  let self := digits_processor picky_llm (Some blob_encoding)
                [mkReport "0" "a"; mkReport "1" "zebra"] in
  let r := mkReport "0" "a" in
  drawn_report (@reports digits_externals self) demo_world = Some r
  /\ @expansion_text digits_externals self "123" r = EmptyString
  /\ @expansion_text digits_externals self "123" (mkReport "1" "zebra")
     = "An answer."%string
  /\ fst (@expand_query digits_externals self "123" demo_world)
     = Ok ("123"%string, 1).
Proof.
  intros self r.
  assert (Hr : drawn_report (@reports digits_externals self) demo_world = Some r)
    by reflexivity.
  assert (Hempty : @expansion_text digits_externals self "123" r = EmptyString)
    by reflexivity.
  split; [exact Hr | split; [exact Hempty | split; [reflexivity | ]]].
  exact (proj1 (@expand_query_fallback digits_externals self "123" demo_world r
                  Hr Hempty)).
Defined.

(** C2, the claim as first stated.  One report in two folds: the corpus is
    smaller than the fold count, yet the trailing fold holds the report
    and the leading fold is the empty one. *)
Lemma split_reports_trailing_fold_counterexample :
  let self := demo_primer quiet_llm (Some 2) None in
  let corpus := demo_reports 1 in
  primer_folds (config self) = Some 2
  /\ Z.of_nat (List.length corpus) < 2
  /\ split_reports self corpus = [[]; corpus]
  /\ last (split_reports self corpus) [] <> [].
Proof.
  split; [reflexivity | split; [reflexivity | split; [reflexivity | ]]].
  vm_compute. discriminate.
Qed.

Lemma split_reports_partition_witness :
  let self := demo_primer quiet_llm (Some 5) None in
  let corpus := demo_reports 2 in
  primer_folds (config self) = Some 5 /\ 1 <= 5
  /\ Z.of_nat (List.length (split_reports self corpus)) = 5
  /\ List.concat (split_reports self corpus) = corpus
  /\ Z.of_nat (List.length (filter is_empty (split_reports self corpus))) = 3.
Proof.
  intros self corpus.
  assert (Hcfg : primer_folds (config self) = Some 5) by reflexivity.
  assert (Hk : 1 <= 5) by lia.
  destruct (split_reports_partition self corpus 5 Hcfg Hk)
    as (Hlen & _ & _ & _ & _ & Hcat & Hsmall & _).
  split; [exact Hcfg | split; [exact Hk | ]].
  split; [exact Hlen | split; [exact Hcat | ]].
  apply Hsmall. reflexivity.
Defined.

Lemma split_reports_balanced_witness :
  let self := demo_primer quiet_llm (Some 3) None in
  let corpus := demo_reports 10 in
  primer_folds (config self) = Some 3 /\ 1 <= 3
  /\ fold_sizes (split_reports self corpus) = [3; 3; 4]
  /\ maximum (fold_sizes (split_reports self corpus))
     - minimum (fold_sizes (split_reports self corpus)) <= 1.
Proof.
  intros self corpus.
  assert (Hcfg : primer_folds (config self) = Some 3) by reflexivity.
  assert (Hk : 1 <= 3) by lia.
  split; [exact Hcfg | split; [exact Hk | split; [reflexivity | ]]].
  exact (split_reports_balanced self corpus 3 Hcfg Hk).
Defined.

Lemma asearch_preserves_fold_order_witness :
  let self := demo_primer flaky_llm (Some 2) None in
  let corpus := [mkReport "1" "good"; mkReport "2" "fine"] in
  let completion := [1; 0]%nat in
  Permutation completion (seq 0 (List.length (split_reports self corpus)))
  /\ exists res,
       asearch self completion demo_clock "q" corpus = Ok res
       /\ Forall2 (fun fold d => exists t, decompose_query self "q" fold = Ok (d, t))
                  (split_reports self corpus) (response res).
Proof.
  intros self corpus completion.
  assert (Hperm : Permutation completion
                    (seq 0 (List.length (split_reports self corpus))))
    by apply perm_swap.
  destruct (asearch_preserves_fold_order self "q" completion demo_clock corpus Hperm)
    as (Hreturns & Hordered).
  assert (Hall : forall fold, In fold (split_reports self corpus) ->
                              exists r, decompose_query self "q" fold = Ok r).
  { intros fold [<- | [<- | []]]; eexists; reflexivity. }
  destruct (Hreturns Hall) as (res & Hres).
  split; [exact Hperm | ].
  exists res. split; [exact Hres | exact (Hordered res Hres)].
Defined.

Lemma asearch_decode_error_propagates_witness :
  let self := demo_primer flaky_llm (Some 2) None in
  let corpus := [mkReport "1" "good"; mkReport "2" "bad"] in
  let completion := [1; 0]%nat in
  let fold := [mkReport "2" "bad"] in
  Permutation completion (seq 0 (List.length (split_reports self corpus)))
  /\ In fold (split_reports self corpus)
  /\ json_loads (fold_answer self "q" fold) = None
  /\ decompose_query self "q" fold = Raise (JSONDecodeError "not json")
  /\ forall res, asearch self completion demo_clock "q" corpus <> Ok res.
Proof.
  intros self corpus completion fold.
  assert (Hperm : Permutation completion
                    (seq 0 (List.length (split_reports self corpus))))
    by apply perm_swap.
  assert (Hin : In fold (split_reports self corpus)) by (right; left; reflexivity).
  assert (Hbad : json_loads (fold_answer self "q" fold) = None) by reflexivity.
  destruct (asearch_decode_error_propagates self "q" completion demo_clock corpus
              fold Hperm Hin Hbad) as (Hlocal & _ & Hnone).
  split; [exact Hperm | split; [exact Hin | split; [exact Hbad | ]]].
  split; [exact Hlocal | exact Hnone].
Defined.

(** C6, the claim as first stated.  No reports, two folds and a model
    whose answer to the empty-context prompt is not JSON: both folds are
    empty, and [asearch] raises the decoding error instead of returning
    two entries. *)
Lemma asearch_empty_corpus_unparsed_counterexample :
  let self := demo_primer garbled_llm (Some 2) None in
  let completion := [0; 1]%nat in
  primer_folds (config self) = Some 2
  /\ split_reports self [] = [[]; []]
  /\ Permutation completion (seq 0 (List.length (split_reports self [])))
  /\ json_loads (fold_answer self "q" []) = None
  /\ asearch self completion demo_clock "q" [] = Raise (JSONDecodeError "not json")
  /\ forall res, asearch self completion demo_clock "q" [] <> Ok res.
Proof.
  split; [reflexivity | split; [reflexivity | ]].
  split; [apply Permutation_refl | split; [reflexivity | ]].
  split; [reflexivity | intros res; vm_compute; discriminate].
Qed.

Lemma asearch_empty_corpus_witness :
  let self := demo_primer quiet_llm (Some 2) None in
  let completion := [1; 0]%nat in
  primer_folds (config self) = Some 2
  /\ Permutation completion [0; 1]%nat
  /\ json_loads (fold_answer self "q" []) = Some "{}"%string
  /\ exists res,
       asearch self completion demo_clock "q" [] = Ok res
       /\ response res = ["{}"%string; "{}"%string]
       /\ List.length (response res) = 2%nat.
Proof.
  intros self completion.
  assert (Hcfg : primer_folds (config self) = Some 2) by reflexivity.
  assert (Hperm : Permutation completion [0; 1]%nat) by apply perm_swap.
  assert (Hjson : json_loads (fold_answer self "q" []) = Some "{}"%string)
    by reflexivity.
  split; [exact Hcfg | split; [exact Hperm | split; [exact Hjson | ]]].
  exact (proj2 (proj2 (proj2
    (asearch_empty_corpus self "q" completion demo_clock "{}"%string
       Hcfg Hperm Hjson)))).
Defined.

Lemma asearch_token_accounting_witness :
  let self := demo_primer flaky_llm (Some 3) (Some blob_encoding) in
  let corpus := demo_reports 4 in
  let completion := [2; 0; 1]%nat in
  Permutation completion (seq 0 (List.length (split_reports self corpus)))
  /\ exists res rs,
       asearch self completion demo_clock "q" corpus = Ok res
       /\ Forall2 (fun fold r => decompose_query self "q" fold = Ok r)
                  (split_reports self corpus) rs
       /\ map snd rs = [1; 1; 1]
       /\ prompt_tokens res = fold_right Z.add 0 (map snd rs)
       /\ prompt_tokens res = 3
       /\ llm_calls res = 2.
Proof.
  intros self corpus completion.
  assert (Hperm : Permutation completion
                    (seq 0 (List.length (split_reports self corpus)))).
  { change (Permutation (2 :: [0; 1]) ([0; 1] ++ 2 :: []))%nat.
    apply Permutation_cons_app. apply Permutation_refl. }
  destruct (asearch_token_accounting self "q" completion demo_clock corpus Hperm)
    as (Hreturns & Hsum).
  assert (Hall : forall fold, In fold (split_reports self corpus) ->
                              exists r, decompose_query self "q" fold = Ok r).
  { intros fold [<- | [<- | [<- | []]]]; eexists; reflexivity. }
  destruct (Hreturns Hall) as (res & Hres).
  destruct (Hsum res Hres) as (rs & Hrs & Htok & Hcalls).
  assert (Hcounts : map snd rs = [1; 1; 1]).
  { clear - Hrs. inversion Hrs as [ | f1 r1 fs1 rs1 H1 T1]; subst.
    inversion T1 as [ | f2 r2 fs2 rs2 H2 T2]; subst.
    inversion T2 as [ | f3 r3 fs3 rs3 H3 T3]; subst.
    inversion T3; subst.
    vm_compute in H1, H2, H3.
    injection H1 as <-. injection H2 as <-. injection H3 as <-. reflexivity. }
  split; [exact Hperm | ].
  exists res, rs.
  split; [exact Hres | split; [exact Hrs | split; [exact Hcounts | ]]].
  split; [exact Htok | split; [ | exact Hcalls]].
  rewrite Htok, Hcounts. reflexivity.
Defined.

Lemma expand_query_empty_corpus_witness :
  let self := demo_processor quiet_llm None [] in
  reports self = []
  /\ expand_query self "a" demo_world
     = (Raise (IndexError "Cannot choose from an empty sequence"), demo_world).
Proof.
  intros self.
  assert (Hempty : reports self = []) by reflexivity.
  split; [exact Hempty | ].
  exact (proj1 (expand_query_empty_corpus self "a" demo_world Hempty)).
Defined.

Lemma token_encoder_use_witness :
  let self := demo_processor flaky_llm None (demo_reports 2) in
  let primer := demo_primer quiet_llm (Some 1) (Some blob_encoding) in
  let fold := demo_reports 2 in
  json_loads (fold_answer primer "ab" fold) = Some "{}"%string
  /\ expand_query (with_token_encoder self (Some blob_encoding)) "ab" demo_world
     = expand_query self "ab" demo_world
  /\ fst (expand_query (with_token_encoder self (Some blob_encoding)) "ab" demo_world)
     = Ok ("An answer."%string, 12)
  /\ decompose_query primer "ab" fold = Ok ("{}"%string, 1).
Proof.
  intros self primer fold.
  assert (Hjson : json_loads (fold_answer primer "ab" fold) = Some "{}"%string)
    by reflexivity.
  destruct (token_encoder_use self (Some blob_encoding) "ab" demo_world
              primer fold "{}"%string Hjson)
    as (Hsame & _ & _ & Hdec).
  split; [exact Hjson | split; [exact Hsame | ]].
  split; [reflexivity | exact (Hdec blob_encoding eq_refl)].
Defined.

Lemma expand_query_one_request_witness :
  let self := demo_processor flaky_llm None (demo_reports 3) in
  reports self <> []
  /\ exists r out w',
       In r (reports self)
       /\ expand_query self "q" demo_world
          = (Ok (out, num_tokens (String.append (expansion_text self "q" r) "q") None),
             w')
       /\ llm_requests w' = llm_requests demo_world ++ [expansion_request "q" r]
       /\ draws w' = S (draws demo_world)
       /\ entropy w' = entropy demo_world.
Proof.
  intros self.
  assert (Hne : reports self <> []) by discriminate.
  split; [exact Hne | ].
  exact (expand_query_one_request self "q" demo_world Hne).
Defined.

Lemma expand_query_text_not_empty_witness :
  let self := demo_processor quiet_llm None (demo_reports 1) in
  let w' := snd (expand_query self "a" demo_world) in
  "a"%string <> EmptyString
  /\ expand_query self "a" demo_world = (Ok ("a"%string, 1), w')
  /\ "a"%string <> EmptyString.
Proof.
  intros self w'.
  assert (Hq : "a"%string <> EmptyString) by discriminate.
  assert (Hres : expand_query self "a" demo_world = (Ok ("a"%string, 1), w'))
    by reflexivity.
  split; [exact Hq | split; [exact Hres | ]].
  exact (expand_query_text_not_empty self "a" demo_world "a" 1 w' Hq Hres).
Defined.

Lemma expand_query_warns_iff_empty_witness :
  let self := demo_processor flaky_llm None (demo_reports 2) in
  let r := mkReport "0" "a" in
  drawn_report (reports self) demo_world = Some r
  /\ fst (expand_query self "q" demo_world) = Ok ("An answer."%string, 11)
  /\ log_records (snd (expand_query self "q" demo_world)) = [].
Proof.
  intros self r.
  assert (Hr : drawn_report (reports self) demo_world = Some r) by reflexivity.
  destruct (expand_query_warns_iff_empty self "q" demo_world r Hr) as (Hsome & _).
  split; [exact Hr | ].
  apply Hsome. discriminate.
Defined.

Lemma call_empty_corpus_witness :
  let self := demo_processor quiet_llm None [] in
  reports self = []
  /\ call self "a" demo_world
     = (Raise (IndexError "Cannot choose from an empty sequence"), demo_world)
  /\ forall vector token_ct w',
       call self "a" demo_world <> (Ok (vector, token_ct), w').
Proof.
  intros self.
  assert (Hempty : reports self = []) by reflexivity.
  destruct (call_empty_corpus self "a" demo_world Hempty) as (Hraise & _ & _ & Hno).
  split; [exact Hempty | split; [exact Hraise | exact Hno]].
Defined.

Lemma call_fallback_embeds_query_witness :
  let self := demo_processor quiet_llm None (demo_reports 2) in
  reports self <> []
  /\ (forall r, In r (reports self) -> expansion_text self "ab" r = EmptyString)
  /\ fst (call self "ab" demo_world) = Ok ([], 2)
  /\ log_records (snd (call self "ab" demo_world))
     = [warning_record "ab"; info_record "ab"].
Proof.
  intros self.
  assert (Hne : reports self <> []) by discriminate.
  assert (Hquiet : forall r, In r (reports self) ->
                             expansion_text self "ab" r = EmptyString)
    by (intros; reflexivity).
  split; [exact Hne | split; [exact Hquiet | ]].
  exact (call_fallback_embeds_query self "ab" demo_world Hne Hquiet).
Defined.

Lemma split_reports_no_empty_fold_witness :
  let self := demo_primer quiet_llm (Some 3) None in
  let corpus := demo_reports 10 in
  primer_folds (config self) = Some 3
  /\ 1 <= 3 <= Z.of_nat (List.length corpus)
  /\ Forall (fun fold => fold <> []) (split_reports self corpus).
Proof.
  intros self corpus.
  assert (Hcfg : primer_folds (config self) = Some 3) by reflexivity.
  assert (Hk : 1 <= 3 <= Z.of_nat (List.length corpus)) by (simpl; lia).
  split; [exact Hcfg | split; [exact Hk | ]].
  exact (split_reports_no_empty_fold self corpus 3 Hcfg Hk).
Defined.

Lemma split_reports_even_witness :
  let self := demo_primer quiet_llm (Some 2) None in
  let corpus := demo_reports 4 in
  primer_folds (config self) = Some 2 /\ 1 <= 2
  /\ Z.of_nat (List.length corpus) mod 2 = 0
  /\ fold_sizes (split_reports self corpus) = [2; 2].
Proof.
  intros self corpus.
  assert (Hcfg : primer_folds (config self) = Some 2) by reflexivity.
  assert (Hk : 1 <= 2) by lia.
  assert (Hmod : Z.of_nat (List.length corpus) mod 2 = 0) by reflexivity.
  split; [exact Hcfg | split; [exact Hk | split; [exact Hmod | ]]].
  exact (split_reports_even self corpus 2 Hcfg Hk Hmod).
Defined.

Lemma split_reports_extreme_folds_witness :
  let self := demo_primer quiet_llm (Some 3) None in
  let corpus := demo_reports 10 in
  primer_folds (config self) = Some 3 /\ 1 <= 3
  /\ minimum (fold_sizes (split_reports self corpus)) = 3
  /\ maximum (fold_sizes (split_reports self corpus)) = 4.
Proof.
  intros self corpus.
  assert (Hcfg : primer_folds (config self) = Some 3) by reflexivity.
  assert (Hk : 1 <= 3) by lia.
  destruct (split_reports_extreme_folds self corpus 3 Hcfg Hk)
    as (_ & _ & Hmin & Hmax).
  split; [exact Hcfg | split; [exact Hk | split; [exact Hmin | exact Hmax]]].
Defined.

Lemma split_reports_larger_folds_witness :
  let self := demo_primer quiet_llm (Some 3) None in
  let corpus := demo_reports 11 in
  primer_folds (config self) = Some 3 /\ 1 <= 3
  /\ Z.of_nat (count_occ Z.eq_dec (fold_sizes (split_reports self corpus)) 4) = 2.
Proof.
  intros self corpus.
  assert (Hcfg : primer_folds (config self) = Some 3) by reflexivity.
  assert (Hk : 1 <= 3) by lia.
  split; [exact Hcfg | split; [exact Hk | ]].
  exact (split_reports_larger_folds self corpus 3 Hcfg Hk).
Defined.

Lemma split_reports_lookup_witness :
  let self := demo_primer quiet_llm (Some 3) None in
  let corpus := demo_reports 10 in
  primer_folds (config self) = Some 3 /\ 1 <= 3 /\ 0 <= 2 < 3
  /\ exists fold,
       nth_error (split_reports self corpus) 2 = Some fold
       /\ Z.of_nat (List.length fold) = 4
       /\ forall j, (j < List.length fold)%nat ->
            nth_error fold j = nth_error corpus (6 + j).
Proof.
  intros self corpus.
  assert (Hcfg : primer_folds (config self) = Some 3) by reflexivity.
  assert (Hk : 1 <= 3) by lia.
  assert (Hi : 0 <= 2 < 3) by lia.
  split; [exact Hcfg | split; [exact Hk | split; [exact Hi | ]]].
  exact (split_reports_lookup self corpus 3 2 Hcfg Hk Hi).
Defined.

Lemma split_reports_singletons_witness :
  let self := demo_primer quiet_llm (Some 3) None in
  let corpus := demo_reports 3 in
  primer_folds (config self) = Some (Z.of_nat (List.length corpus))
  /\ 1 <= Z.of_nat (List.length corpus)
  /\ split_reports self corpus = map (fun r => [r]) corpus.
Proof.
  intros self corpus.
  assert (Hcfg : primer_folds (config self) = Some (Z.of_nat (List.length corpus)))
    by reflexivity.
  assert (Hn : 1 <= Z.of_nat (List.length corpus)) by (simpl; lia).
  split; [exact Hcfg | split; [exact Hn | ]].
  exact (split_reports_singletons self corpus Hcfg Hn).
Defined.

Lemma asearch_returns_iff_all_parse_witness :
  let self := demo_primer flaky_llm (Some 2) None in
  let corpus := [mkReport "1" "good"; mkReport "2" "fine"] in
  let completion := [1; 0]%nat in
  Permutation completion (seq 0 (List.length (split_reports self corpus)))
  /\ ((exists res, asearch self completion demo_clock "q" corpus = Ok res)
      <-> (forall fold, In fold (split_reports self corpus) ->
             json_loads (fold_answer self "q" fold) <> None)).
Proof.
  intros self corpus completion.
  assert (Hperm : Permutation completion
                    (seq 0 (List.length (split_reports self corpus))))
    by apply perm_swap.
  split; [exact Hperm | ].
  exact (asearch_returns_iff_all_parse self "q" demo_clock corpus completion Hperm).
Defined.

Lemma asearch_order_independent_witness :
  let self := demo_primer flaky_llm (Some 2) None in
  let corpus := [mkReport "1" "good"; mkReport "2" "fine"] in
  Permutation [1; 0]%nat (seq 0 (List.length (split_reports self corpus)))
  /\ Permutation [0; 1]%nat (seq 0 (List.length (split_reports self corpus)))
  /\ exists res,
       asearch self [1; 0]%nat demo_clock "q" corpus = Ok res
       /\ asearch self [0; 1]%nat demo_clock "q" corpus = Ok res.
Proof.
  intros self corpus.
  assert (H1 : Permutation [1; 0]%nat
                 (seq 0 (List.length (split_reports self corpus))))
    by apply perm_swap.
  assert (H2 : Permutation [0; 1]%nat
                 (seq 0 (List.length (split_reports self corpus))))
    by apply Permutation_refl.
  destruct (asearch_order_independent self "q" demo_clock corpus
              [1; 0]%nat [0; 1]%nat H1 H2) as (Hsame & _).
  split; [exact H1 | split; [exact H2 | ]].
  eexists. split; [reflexivity | ]. apply Hsame. reflexivity.
Defined.

Lemma asearch_response_count_witness :
  let self := demo_primer quiet_llm (Some 5) None in
  let corpus := demo_reports 2 in
  let completion := [0; 1; 2; 3; 4]%nat in
  Permutation completion (seq 0 (List.length (split_reports self corpus)))
  /\ exists res,
       asearch self completion demo_clock "q" corpus = Ok res
       /\ List.length (response res) = 5%nat.
Proof.
  intros self corpus completion.
  assert (Hperm : Permutation completion
                    (seq 0 (List.length (split_reports self corpus))))
    by apply Permutation_refl.
  split; [exact Hperm | ].
  eexists. split; [reflexivity | ].
  exact (asearch_response_count self "q" demo_clock corpus completion _
           Hperm eq_refl).
Defined.

Lemma asearch_prompt_tokens_total_witness :
  let self := demo_primer quiet_llm (Some 2) (Some blob_encoding) in
  let corpus := demo_reports 3 in
  let completion := [1; 0]%nat in
  Permutation completion (seq 0 (List.length (split_reports self corpus)))
  /\ exists res,
       asearch self completion demo_clock "q" corpus = Ok res
       /\ map (fold_tokens self "q") (split_reports self corpus) = [1; 1]
       /\ prompt_tokens res
          = fold_right Z.add 0 (map (fold_tokens self "q") (split_reports self corpus))
       /\ prompt_tokens res = 2
       /\ 0 <= prompt_tokens res.
Proof.
  intros self corpus completion.
  assert (Hperm : Permutation completion
                    (seq 0 (List.length (split_reports self corpus))))
    by apply perm_swap.
  split; [exact Hperm | ].
  eexists. split; [reflexivity | ].
  destruct (asearch_prompt_tokens_total self "q" demo_clock corpus completion _
              Hperm eq_refl) as (Htotal & Hpos).
  split; [reflexivity | split; [exact Htotal | split; [ | exact Hpos]]].
  rewrite Htotal. reflexivity.
Defined.

Lemma asearch_single_fold_witness :
  let self := demo_primer quiet_llm None (Some blob_encoding) in
  let corpus := demo_reports 3 in
  or_default (primer_folds (config self)) 1 = 1
  /\ json_loads (fold_answer self "q" corpus) = Some "{}"%string
  /\ exists res,
       asearch self [O] demo_clock "q" corpus = Ok res
       /\ response res = ["{}"%string]
       /\ prompt_tokens res = 1.
Proof.
  intros self corpus.
  assert (Hone : or_default (primer_folds (config self)) 1 = 1) by reflexivity.
  assert (Hjson : json_loads (fold_answer self "q" corpus) = Some "{}"%string)
    by reflexivity.
  split; [exact Hone | split; [exact Hjson | ]].
  eexists. split.
  - exact (asearch_single_fold self "q" demo_clock corpus "{}"%string Hone Hjson).
  - split; reflexivity.
Defined.

Lemma asearch_negative_folds_witness :
  let self := demo_primer flaky_llm (Some (-3)) None in
  let corpus := [mkReport "1" "bad"] in
  primer_folds (config self) = Some (-3) /\ -3 < 0
  /\ split_reports self corpus = []
  /\ exists res,
       asearch self [] demo_clock "q" corpus = Ok res
       /\ response res = []
       /\ prompt_tokens res = 0
       /\ context_data res = [("top_k_reports"%string, corpus)].
Proof.
  intros self corpus.
  assert (Hcfg : primer_folds (config self) = Some (-3)) by reflexivity.
  assert (Hk : -3 < 0) by lia.
  destruct (asearch_negative_folds self "q" demo_clock corpus (-3) [] Hcfg Hk)
    as (Hnone & _ & Hres).
  split; [exact Hcfg | split; [exact Hk | split; [exact Hnone | ]]].
  eexists. split; [exact Hres | ]. repeat split.
Defined.
